(** * GraphQL resolvers over the product, user and order collections

    A shallow embedding of [schema/resolvers.js] together with the three
    Mongoose schemas ([models/Product.js], [models/User.js],
    [models/Order.js]) and the argument lists of [schema/typeDefs.js].

    The resolvers are [async] functions that await Mongoose calls, publish
    on [pubsub] and wrap every failure in [try { ... } catch (error)
    { throw new Error('Failed to ...: ' + error.message) }].  They are
    embedded in a state-and-exception monad over a [World] that holds the
    collections, the list of store round trips and the list of published
    events.  A thrown exception keeps the state reached so far, as in
    JavaScript: a write that was awaited before the throw stays written. *)

From Stdlib Require Import String Ascii List ZArith Bool Arith Lia.
Import ListNotations.

Local Open Scope string_scope.
Local Open Scope list_scope.

(** JavaScript string concatenation, [a + b]. *)
Notation "a +s b" := (String.append a b) (at level 50, left associativity).

(** ** JavaScript values and GraphQL arguments *)

(** A property or an argument is [undefined] (the key is absent), [null],
    or holds a value. *)
Inductive Optional (T : Type) : Type :=
| undefined
| null
| value (v : T).
Arguments undefined {T}.
Arguments null {T}.
Arguments value {T} v.

(** JavaScript truthiness of an optional Boolean: [if (onlyActive)]. *)
Definition truthy (b : Optional bool) : bool :=
  match b with
  | value true => true
  | _ => false
  end.

(** The 12-byte identity that the store assigns to a document. *)
Definition ObjectId := nat.

(** A GraphQL [ID] argument is a string.  Mongoose casts it to an ObjectId
    before it queries; the two outcomes of that cast are kept apart:
    [Hex o] is the 24-digit text of the ObjectId [o], [Malformed s] is any
    other string, for which the cast throws a CastError. *)
Inductive ID : Type :=
| Hex (oid : ObjectId)
| Malformed (text : string).

(** The enums of [typeDefs.js]; a document stores an enum value as its
    name. *)
Inductive StatusEnum := ACTIVE | INACTIVE.
Inductive OrderStatusEnum := PENDING | COMPLETED | CANCELLED.
Inductive RoleEnum := ADMIN | CUSTOMER.

Definition StatusEnum_name (s : StatusEnum) : string :=
  match s with ACTIVE => "ACTIVE" | INACTIVE => "INACTIVE" end.
Definition OrderStatusEnum_name (s : OrderStatusEnum) : string :=
  match s with
  | PENDING => "PENDING" | COMPLETED => "COMPLETED" | CANCELLED => "CANCELLED"
  end.
Definition RoleEnum_name (r : RoleEnum) : string :=
  match r with ADMIN => "ADMIN" | CUSTOMER => "CUSTOMER" end.

Definition Optional_map {A B : Type} (f : A -> B) (x : Optional A) : Optional B :=
  match x with
  | undefined => undefined
  | null => null
  | value v => value (f v)
  end.

(** ** Documents *)

(** [productSchema]: name, price, category, status. *)
Record ProductDoc := mkProduct {
  product_id : ObjectId;
  product_name : Optional string;
  product_price : Optional Z;
  product_category : Optional string;
  product_status : Optional string }.

(** [userSchema]: username, email, role. *)
Record UserDoc := mkUser {
  user_id : ObjectId;
  user_username : Optional string;
  user_email : Optional string;
  user_role : Optional string }.

(** [orderSchema]: products (an array of ObjectId references), user (one
    ObjectId reference), total, status. *)
Record OrderDoc := mkOrder {
  order_id : ObjectId;
  order_products : Optional (list ObjectId);
  order_user : Optional ObjectId;
  order_total : Optional Z;
  order_status : Optional string }.

(** ** The world the resolvers run in *)

(** The three collections, each in the order the store returns its
    documents, and the next identity the store hands out. *)
Record Store := mkStore {
  Products : list ProductDoc;
  Users : list UserDoc;
  Orders : list OrderDoc;
  next_id : ObjectId }.

(** The Mongoose operations the resolvers call. *)
Inductive StoreOp :=
| op_find | op_findOne | op_findById
| op_create | op_findByIdAndUpdate | op_findByIdAndDelete.

(** One round trip to the store: the model's name and the operation. *)
Definition StoreCall : Type := string * StoreOp.

(** The payload objects handed to [pubsub.publish]; each constructor is
    the single key of the object literal in the source. *)
Inductive Payload :=
| productAdded (product : ProductDoc)
| productUpdated (product : option ProductDoc)
| productDeleted (id : ID)
| userAdded (user : UserDoc)
| userUpdated (user : option UserDoc)
| userDeleted (id : ID)
| orderAdded (order : OrderDoc)
| orderUpdated (order : option OrderDoc)
| orderDeleted (id : ID).

Definition Event : Type := string * Payload.

Record World := mkWorld {
  db : Store;
  calls : list StoreCall;     (* oldest first *)
  published : list Event }.   (* oldest first *)

(** ** Completions and the monad of asynchronous resolvers *)

(** A resolver either returns a value or throws; [catch (error)] reads
    only [error.message], so a thrown error is its message. *)
Inductive Completion (A : Type) : Type :=
| Returned (result : A)
| Thrown (message : string).
Arguments Returned {A} result.
Arguments Thrown {A} message.

Definition Async (A : Type) : Type := World -> Completion A * World.

Definition ret {A : Type} (a : A) : Async A := fun w => (Returned a, w).

Definition throw {A : Type} (message : string) : Async A :=
  fun w => (Thrown message, w).

(** [await c] followed by the rest of the function body. *)
Definition bind {A B : Type} (c : Async A) (k : A -> Async B) : Async B :=
  fun w =>
    match c w with
    | (Returned a, w') => k a w'
    | (Thrown m, w') => (Thrown m, w')
    end.

Notation "x <- c ;; k" := (bind c (fun x => k))
  (at level 61, c at next level, right associativity).
Notation "c ;; k" := (bind c (fun _ => k))
  (at level 61, right associativity).

(** [try { body } catch (error) { handler(error.message) }]. *)
Definition try_catch {A : Type} (body : Async A) (handler : string -> Async A)
  : Async A :=
  fun w =>
    match body w with
    | (Returned a, w') => (Returned a, w')
    | (Thrown m, w') => handler m w'
    end.

(** [console.log(...)]: no effect on the result, the store or the
    events. *)
Definition console_log : Async unit := ret tt.

Definition outcome {A : Type} (r : Completion A * World) : Completion A := fst r.
Definition world_after {A : Type} (r : Completion A * World) : World := snd r.

(** ** The Mongoose model interface

    Mongoose is a library outside the repository.  The operations below
    follow its documented behaviour on an in-memory collection, with the
    connection assumed up: an operation throws only where Mongoose fails to
    cast an argument to the schema's type.  Every operation that reaches
    the store appends one [StoreCall] to [calls]. *)

Module Mongoose.

(** A compiled model: its name, its collection in the store, and the
    [_id] of a document. *)
Record Model (D : Type) := mkModel {
  modelName : string;
  collection : Store -> list D;
  set_collection : list D -> Store -> Store;
  _id : D -> ObjectId }.
Arguments modelName {D} m.
Arguments collection {D} m s.
Arguments set_collection {D} m l s.
Arguments _id {D} m d.

Definition read_db : Async Store := fun w => (Returned (db w), w).

Definition write_db (s : Store) : Async unit :=
  fun w => (Returned tt, mkWorld s (calls w) (published w)).

Definition record_call (c : StoreCall) : Async unit :=
  fun w => (Returned tt, mkWorld (db w) (calls w ++ [c]) (published w)).

Definition quoted (s : string) : string :=
  String (ascii_of_nat 34) s +s String (ascii_of_nat 34) EmptyString.

(** The message of Mongoose's CastError.  No resolver inspects it; it is
    only prefixed and thrown again. *)
Definition CastError_message (text path model : string) : string :=
  "Cast to ObjectId failed for value " +s quoted text
  +s " (type string) at path " +s quoted path
  +s " for model " +s quoted model.

Definition castObjectId {D : Type} (m : Model D) (path : string) (id : ID)
  : Async ObjectId :=
  match id with
  | Hex oid => ret oid
  | Malformed text => throw (CastError_message text path (modelName m))
  end.

Fixpoint castObjectIds {D : Type} (m : Model D) (path : string) (ids : list ID)
  : Async (list ObjectId) :=
  match ids with
  | [] => ret []
  | id :: rest =>
      oid <- castObjectId m path id ;;
      oids <- castObjectIds m path rest ;;
      ret (oid :: oids)
  end.

(** Casting an optional reference: [undefined] and [null] need no cast. *)
Definition castOptional {A B : Type} (cast : A -> Async B) (x : Optional A)
  : Async (Optional B) :=
  match x with
  | undefined => ret undefined
  | null => ret null
  | value v => b <- cast v ;; ret (value b)
  end.

(** *** Query filters *)

(** [{}], or no filter argument. *)
Definition all {D : Type} : D -> bool := fun _ => true.

(** [{ field: 'text' }] on a string field: the field holds exactly that
    string; an absent or null field does not match. *)
Definition field_equals {D : Type} (field : D -> Optional string) (text : string)
  : D -> bool :=
  fun d => match field d with
           | value s => String.eqb s text
           | _ => false
           end.

(** [{ _id: { $in: ids } }]: the document's [_id] is one of [ids].  An
    operand that is no array is wrapped into a one-element array by
    Mongoose and matches no [_id]. *)
Definition id_in {D : Type} (m : Model D) (ids : Optional (list ObjectId))
  : D -> bool :=
  fun d => match ids with
           | value l => existsb (Nat.eqb (_id m d)) l
           | _ => false
           end.

(** [{ _id: ref }]: [undefined] and [null] match no document. *)
Definition id_equals {D : Type} (m : Model D) (ref : Optional ObjectId)
  : D -> bool :=
  fun d => match ref with
           | value oid => Nat.eqb (_id m d) oid
           | _ => false
           end.

(** *** Operations *)

(** [Model.find(filter)]: every matching document, in collection order. *)
Definition find {D : Type} (m : Model D) (filter : D -> bool) : Async (list D) :=
  record_call (modelName m, op_find) ;;
  s <- read_db ;;
  ret (List.filter filter (collection m s)).

(** [Model.findOne(filter)]: the first matching document, or null. *)
Definition findOne {D : Type} (m : Model D) (filter : D -> bool)
  : Async (option D) :=
  record_call (modelName m, op_findOne) ;;
  s <- read_db ;;
  ret (List.find filter (collection m s)).

(** [Model.findById(id)]: [findOne({ _id: id })] after casting [id]. *)
Definition findById {D : Type} (m : Model D) (id : ID) : Async (option D) :=
  oid <- castObjectId m "_id" id ;;
  record_call (modelName m, op_findById) ;;
  s <- read_db ;;
  ret (List.find (fun d => Nat.eqb (_id m d) oid) (collection m s)).

(** [Model.create(fields)]: the fields are cast (a failed cast is a
    ValidationError and nothing is written), the new document gets a fresh
    [_id], is appended to the collection and returned. *)
Definition create {D : Type} (m : Model D) (fields : Async (ObjectId -> D))
  : Async D :=
  build <- try_catch fields
             (fun message => throw (modelName m +s " validation failed: " +s message)) ;;
  record_call (modelName m, op_create) ;;
  s <- read_db ;;
  let d := build (next_id s) in
  let s' := set_collection m (collection m s ++ [d]) s in
  write_db (mkStore (Products s') (Users s') (Orders s') (S (next_id s))) ;;
  ret d.

(** Replaces the first document with [_id = oid] by its image under
    [change]; returns the new collection and the changed document. *)
Fixpoint update_first {D : Type} (m : Model D) (oid : ObjectId) (change : D -> D)
  (l : list D) : list D * option D :=
  match l with
  | [] => ([], None)
  | d :: rest =>
      if Nat.eqb (_id m d) oid then (change d :: rest, Some (change d))
      else let (rest', r) := update_first m oid change rest in (d :: rest', r)
  end.

(** Removes the first document with [_id = oid]; returns the new
    collection and the removed document. *)
Fixpoint remove_first {D : Type} (m : Model D) (oid : ObjectId) (l : list D)
  : list D * option D :=
  match l with
  | [] => ([], None)
  | d :: rest =>
      if Nat.eqb (_id m d) oid then (rest, Some d)
      else let (rest', r) := remove_first m oid rest in (d :: rest', r)
  end.

(** [Model.findByIdAndUpdate(id, update, { new: true })]: [update]'s keys
    are cast and set on the document with that [_id]; the document after
    the update is returned, or null when there is none. *)
Definition findByIdAndUpdate {D : Type} (m : Model D) (id : ID)
  (update : Async (D -> D)) : Async (option D) :=
  oid <- castObjectId m "_id" id ;;
  change <- update ;;
  record_call (modelName m, op_findByIdAndUpdate) ;;
  s <- read_db ;;
  let (l, r) := update_first m oid change (collection m s) in
  write_db (set_collection m l s) ;;
  ret r.

(** [Model.findByIdAndDelete(id)]: removes the document with that [_id]
    and returns it, or returns null when there is none. *)
Definition findByIdAndDelete {D : Type} (m : Model D) (id : ID)
  : Async (option D) :=
  oid <- castObjectId m "_id" id ;;
  record_call (modelName m, op_findByIdAndDelete) ;;
  s <- read_db ;;
  let (l, r) := remove_first m oid (collection m s) in
  write_db (set_collection m l s) ;;
  ret r.

(** A key of an update object: Mongoose removes a key whose value is
    [undefined] from the update, so the stored field stays; [null] and
    values are set. *)
Definition set_key {T : Type} (new old : Optional T) : Optional T :=
  match new with
  | undefined => old
  | _ => new
  end.

End Mongoose.

(** ** The three models: [mongoose.model('Product', productSchema)] etc. *)

Module Models.

Definition Product : Mongoose.Model ProductDoc :=
  Mongoose.mkModel ProductDoc "Product" Products
    (fun l s => mkStore l (Users s) (Orders s) (next_id s)) product_id.

Definition User : Mongoose.Model UserDoc :=
  Mongoose.mkModel UserDoc "User" Users
    (fun l s => mkStore (Products s) l (Orders s) (next_id s)) user_id.

Definition Order : Mongoose.Model OrderDoc :=
  Mongoose.mkModel OrderDoc "Order" Orders
    (fun l s => mkStore (Products s) (Users s) l (next_id s)) order_id.

(** The update object [{ name, price, category, status }] set on a product
    document. *)
Definition Product_set (name : Optional string) (price : Optional Z)
  (category status : Optional string) (d : ProductDoc) : ProductDoc :=
  mkProduct (product_id d)
    (Mongoose.set_key name (product_name d))
    (Mongoose.set_key price (product_price d))
    (Mongoose.set_key category (product_category d))
    (Mongoose.set_key status (product_status d)).

(** The update object [{ username, email, role }] set on a user document. *)
Definition User_set (username email role : Optional string) (d : UserDoc)
  : UserDoc :=
  mkUser (user_id d)
    (Mongoose.set_key username (user_username d))
    (Mongoose.set_key email (user_email d))
    (Mongoose.set_key role (user_role d)).

(** The update object [{ products, user, total, status }], after its
    references are cast, set on an order document. *)
Definition Order_set (products : Optional (list ObjectId))
  (user : Optional ObjectId) (total : Optional Z) (status : Optional string)
  (d : OrderDoc) : OrderDoc :=
  mkOrder (order_id d)
    (Mongoose.set_key products (order_products d))
    (Mongoose.set_key user (order_user d))
    (Mongoose.set_key total (order_total d))
    (Mongoose.set_key status (order_status d)).

(** Casting the references of an order's update object. *)
Definition Order_castUpdate (products : Optional (list ID)) (user : Optional ID)
  (total : Optional Z) (status : Optional string)
  : Async (OrderDoc -> OrderDoc) :=
  ps <- Mongoose.castOptional (Mongoose.castObjectIds Order "products") products ;;
  u <- Mongoose.castOptional (Mongoose.castObjectId Order "user") user ;;
  ret (Order_set ps u total status).

End Models.

(** ** The event bus

    [new PubSub()] of graphql-subscriptions: [publish] hands the payload to
    the listeners of the topic and returns.  No resolver subscribes (the
    Subscription resolvers are commented out), so a publish only adds the
    event to [published]. *)
Inductive PubSub := new_PubSub.

(** [pubsub.publish(topic, payload)], where [pubsub] is the binding of the
    identifier in the module scope: [None] when the identifier is not
    declared, in which case evaluating it throws a ReferenceError. *)
Definition pubsub_publish (pubsub : option PubSub) (topic : string)
  (payload : Payload) : Async unit :=
  match pubsub with
  | None => throw "pubsub is not defined"
  | Some _ =>
      fun w => (Returned tt, mkWorld (db w) (calls w) (published w ++ [(topic, payload)]))
  end.

(** The binding of [pubsub] in [resolvers.js] as it is written: lines 8-9
    ([const { PubSub } = require(...)], [const pubsub = new PubSub()]) are
    commented out, so the identifier is not declared. *)
Definition module_pubsub : option PubSub := None.

(** ** [resolvers.Query] *)

Module Query.

Definition product (id : ID) : Async (option ProductDoc) :=
  try_catch
    (Mongoose.findById Models.Product id)
    (fun message => throw ("Failed to fetch product: " +s message)).

(** [products(onlyActive: Boolean)]. *)
Definition products (onlyActive : Optional bool) : Async (list ProductDoc) :=
  try_catch
    (if truthy onlyActive
     then Mongoose.find Models.Product (Mongoose.field_equals product_status "ACTIVE")
     else Mongoose.find Models.Product Mongoose.all)
    (fun message => throw ("Failed to fetch products: " +s message)).

Definition user (id : ID) : Async (option UserDoc) :=
  try_catch
    (Mongoose.findById Models.User id)
    (fun message => throw ("Failed to fetch user: " +s message)).

Definition users : Async (list UserDoc) :=
  try_catch
    (Mongoose.find Models.User Mongoose.all)
    (fun message => throw ("Failed to fetch users: " +s message)).

Definition order (id : ID) : Async (option OrderDoc) :=
  try_catch
    (Mongoose.findById Models.Order id)
    (fun message => throw ("Failed to fetch order: " +s message)).

(** [orders(userId: ID)] in the schema; the resolver is [async () => ...]
    and takes no parameter, so the argument the schema passes is not
    read. *)
Definition orders (userId : Optional ID) : Async (list OrderDoc) :=
  try_catch
    (data <- Mongoose.find Models.Order Mongoose.all ;;
     console_log ;;
     ret data)
    (fun message => throw ("Failed to fetch orders: " +s message)).

End Query.

(** ** [resolvers.Mutation] *)

Module Mutation.

Section Scope.

(** The binding of the free identifier [pubsub]. *)
Variable pubsub : option PubSub.

Definition addProduct (name : string) (price : Z) (category : Optional string)
  (status : Optional StatusEnum) : Async ProductDoc :=
  try_catch
    (product <- Mongoose.create Models.Product
       (ret (fun oid => mkProduct oid (value name) (value price) category
                          (Optional_map StatusEnum_name status))) ;;
     pubsub_publish pubsub "PRODUCT_ADDED" (productAdded product) ;;
     ret product)
    (fun message => throw ("Failed to add product: " +s message)).

Definition updateProduct (id : ID) (name : Optional string) (price : Optional Z)
  (category : Optional string) (status : Optional StatusEnum)
  : Async (option ProductDoc) :=
  try_catch
    (product <- Mongoose.findByIdAndUpdate Models.Product id
       (ret (Models.Product_set name price category
               (Optional_map StatusEnum_name status))) ;;
     pubsub_publish pubsub "PRODUCT_UPDATED" (productUpdated product) ;;
     ret product)
    (fun message => throw ("Failed to update product: " +s message)).

Definition deleteProduct (id : ID) : Async bool :=
  try_catch
    (Mongoose.findByIdAndDelete Models.Product id ;;
     pubsub_publish pubsub "PRODUCT_DELETED" (productDeleted id) ;;
     ret true)
    (fun message => throw ("Failed to delete product: " +s message)).

Definition addUser (username email : string) (role : RoleEnum) : Async UserDoc :=
  try_catch
    (console_log ;;
     user <- Mongoose.create Models.User
       (ret (fun oid => mkUser oid (value username) (value email)
                          (value (RoleEnum_name role)))) ;;
     pubsub_publish pubsub "USER_ADDED" (userAdded user) ;;
     ret user)
    (fun message => throw ("Failed to add user: " +s message)).

Definition updateUser (id : ID) (username email : Optional string)
  (role : Optional RoleEnum) : Async (option UserDoc) :=
  try_catch
    (user <- Mongoose.findByIdAndUpdate Models.User id
       (ret (Models.User_set username email (Optional_map RoleEnum_name role))) ;;
     pubsub_publish pubsub "USER_UPDATED" (userUpdated user) ;;
     ret user)
    (fun message => throw ("Failed to update user: " +s message)).

Definition deleteUser (id : ID) : Async bool :=
  try_catch
    (Mongoose.findByIdAndDelete Models.User id ;;
     pubsub_publish pubsub "USER_DELETED" (userDeleted id) ;;
     ret true)
    (fun message => throw ("Failed to delete user: " +s message)).

Definition addOrder (products : list ID) (user : ID) (total : Z)
  (status : OrderStatusEnum) : Async OrderDoc :=
  try_catch
    (order <- Mongoose.create Models.Order
       (ps <- Mongoose.castObjectIds Models.Order "products" products ;;
        u <- Mongoose.castObjectId Models.Order "user" user ;;
        ret (fun oid => mkOrder oid (value ps) (value u) (value total)
                          (value (OrderStatusEnum_name status)))) ;;
     pubsub_publish pubsub "ORDER_ADDED" (orderAdded order) ;;
     console_log ;;
     ret order)
    (fun message => throw ("Failed to add order: " +s message)).

Definition updateOrder (id : ID) (products : Optional (list ID))
  (user : Optional ID) (total : Optional Z) (status : Optional OrderStatusEnum)
  : Async (option OrderDoc) :=
  try_catch
    (order <- Mongoose.findByIdAndUpdate Models.Order id
       (Models.Order_castUpdate products user total
          (Optional_map OrderStatusEnum_name status)) ;;
     pubsub_publish pubsub "ORDER_UPDATED" (orderUpdated order) ;;
     ret order)
    (fun message => throw ("Failed to update order: " +s message)).

Definition deleteOrder (id : ID) : Async bool :=
  try_catch
    (Mongoose.findByIdAndDelete Models.Order id ;;
     pubsub_publish pubsub "ORDER_DELETED" (orderDeleted id) ;;
     ret true)
    (fun message => throw ("Failed to delete order: " +s message)).

End Scope.

End Mutation.

(** ** [resolvers.Order]: the field resolvers of the Order type *)

Module Order.

(** [products: async (order) => { try { return Product.find(...) } ... }]:
    the promise is returned without [await], so the [catch] clause never
    sees its rejection and the result is that of [find] itself. *)
Definition products (order : OrderDoc) : Async (list ProductDoc) :=
  Mongoose.find Models.Product
    (Mongoose.id_in Models.Product (order_products order)).

Definition user (order : OrderDoc) : Async (option UserDoc) :=
  try_catch
    (user <- Mongoose.findOne Models.User
               (Mongoose.id_equals Models.User (order_user order)) ;;
     console_log ;;
     ret user)
    (fun message => throw ("Failed to fetch user for order: " +s message)).

End Order.

(** ** Execution of a selection on orders

    graphql-js calls the root resolver and then, for every Order it
    returned, the field resolvers of the selected relationship fields.  A
    field resolver that throws makes that one field null and adds an
    error; the other fields are still resolved. *)

Module Execute.

Record OrderResult := mkOrderResult {
  base : OrderDoc;
  products_field : Completion (list ProductDoc);
  user_field : Completion (option UserDoc) }.

Definition field {A : Type} (resolver : Async A) : Async (Completion A) :=
  fun w => let (c, w') := resolver w in (Returned c, w').

(** One Order with [products] and [user] selected. *)
Definition completeOrder (o : OrderDoc) : Async OrderResult :=
  ps <- field (Order.products o) ;;
  u <- field (Order.user o) ;;
  ret (mkOrderResult o ps u).

Fixpoint completeOrders (l : list OrderDoc) : Async (list OrderResult) :=
  match l with
  | [] => ret []
  | o :: rest =>
      r <- completeOrder o ;;
      rs <- completeOrders rest ;;
      ret (r :: rs)
  end.

(** [query { order(id: ...) { products {...} user {...} } }] *)
Definition order (id : ID) : Async (option OrderResult) :=
  o <- Query.order id ;;
  match o with
  | None => ret None
  | Some d => r <- completeOrder d ;; ret (Some r)
  end.

(** [query { orders(userId: ...) { products {...} user {...} } }] *)
Definition orders (userId : Optional ID) : Async (list OrderResult) :=
  l <- Query.orders userId ;;
  completeOrders l.

End Execute.

(** ** Reading the list of store calls *)

(** The number of store calls issued on the model named [model]. *)
Definition lookups_on (model : string) (cs : list StoreCall) : nat :=
  List.length (List.filter (fun c => String.eqb (fst c) model) cs).

Definition world_of (s : Store) : World := mkWorld s [] [].

(** ** A small shop, used to run the resolvers on concrete data *)

Definition keyboard : ProductDoc :=
  mkProduct 1 (value "KeyBoard") (value 99%Z) (value "Electronics") (value "ACTIVE").
Definition mouse : ProductDoc :=
  mkProduct 2 (value "Mouse") (value 10%Z) null (value "INACTIVE").
(** A product written without a status. *)
Definition cable : ProductDoc :=
  mkProduct 3 (value "Cable") (value 5%Z) undefined undefined.

Definition user_1 : UserDoc :=
  mkUser 11 (value "user_1") (value "user_1@ymail.com") (value "CUSTOMER").
Definition user_2 : UserDoc :=
  mkUser 12 (value "user_2") (value "user_2@ymail.com") (value "ADMIN").

(** An order of [user_1] that lists the mouse first and the keyboard
    twice. *)
Definition order_a : OrderDoc :=
  mkOrder 21 (value [2; 1; 1]) (value 11) (value 200%Z) (value "COMPLETED").
(** An order of [user_2]. *)
Definition order_b : OrderDoc :=
  mkOrder 22 (value [3]) (value 12) (value 5%Z) (value "PENDING").
(** An order whose user 13 and whose product 9 are not in the store. *)
Definition order_c : OrderDoc :=
  mkOrder 23 (value [1; 9]) (value 13) (value 99%Z) (value "PENDING").

Definition shop : Store :=
  mkStore [keyboard; mouse; cable] [user_1; user_2] [order_a; order_b; order_c] 24.

(** ** Notions the properties are stated with *)

(** The product references of an order, as a list; an order whose
    [products] is not an array references nothing. *)
Definition references (o : OrderDoc) : list ObjectId :=
  match order_products o with
  | value l => l
  | _ => []
  end.

(** Positional alignment of a resolved [products] field with the
    references: the i-th resolved product is the product of the i-th
    reference, so the identities of the resolved products are the
    reference list itself, in order and with multiplicity. *)
Definition positionally_aligned (refs : list ObjectId) (ps : list ProductDoc)
  : Prop :=
  List.map product_id ps = refs.

(** Every reference has its own entry in the resolved field: the entity,
    or a marker that stands for the missing one. *)
Definition entry_for_every_reference (refs : list ObjectId) (ps : list ProductDoc)
  : Prop :=
  List.length ps = List.length refs.

(** Naive per-record resolution, on the store alone: the order, the stored
    products whose identity is among its references, and the stored user
    with the identity of its user reference. *)
Definition resolve_per_record (s : Store) (o : OrderDoc) : Execute.OrderResult :=
  Execute.mkOrderResult o
    (Returned (List.filter (Mongoose.id_in Models.Product (order_products o))
                 (Products s)))
    (Returned (List.find (Mongoose.id_equals Models.User (order_user o))
                 (Users s))).

(** The store calls that resolving the two relationship fields of one
    order issues. *)
Definition calls_per_order : list StoreCall :=
  [("Product", op_find); ("User", op_findOne)].

(** [set_collection] and [collection] of a model are a lens on the store. *)
Definition lawful {D : Type} (m : Mongoose.Model D) : Prop :=
  (forall s, Mongoose.set_collection m (Mongoose.collection m s) s = s) /\
  (forall l s, Mongoose.collection m (Mongoose.set_collection m l s) = l).

(** What a delete resolver does on the collection of [m] for a well-formed
    identity: it returns true, the first document with that identity is
    gone, one event is published; the store is unchanged when no document
    had the identity and one document shorter when one had; and the same
    call repeated returns true again. *)
Definition removes_and_returns_true {D : Type} (m : Mongoose.Model D)
  (delete : ID -> Async bool) (topic : string) (payload : ID -> Payload) : Prop :=
  forall (w : World) (oid : ObjectId),
    let before := Mongoose.collection m (db w) in
    let found := List.find (fun d => Nat.eqb (Mongoose._id m d) oid) before in
    exists w' : World,
      delete (Hex oid) w = (Returned true, w') /\
      Mongoose.collection m (db w') = fst (Mongoose.remove_first m oid before) /\
      published w' = published w ++ [(topic, payload (Hex oid))] /\
      (found = None -> db w' = db w) /\
      (found <> None ->
       S (List.length (Mongoose.collection m (db w'))) = List.length before) /\
      outcome (delete (Hex oid) w') = Returned true.

(** ** Notions for the properties of the whole resolver map *)

(** The identities of a collection are pairwise distinct and all below the
    next identity the store hands out. *)
Definition keyed {D : Type} (m : Mongoose.Model D) (s : Store) : Prop :=
  NoDup (List.map (Mongoose._id m) (Mongoose.collection m s)) /\
  (forall d, In d (Mongoose.collection m s) -> Mongoose._id m d < next_id s).

Definition well_keyed (s : Store) : Prop :=
  keyed Models.Product s /\ keyed Models.User s /\ keyed Models.Order s.

(** The event discipline of one mutation call with result [r], started in
    [w]: a call that returns has appended exactly one event, on [topic]; a
    call that throws has appended none and has left the store as it was. *)
Definition one_event_iff_returned {A : Type} (topic : string) (w : World)
  (r : Completion A * World) : Prop :=
  match outcome r with
  | Returned _ =>
      exists payload, published (world_after r) = published w ++ [(topic, payload)]
  | Thrown _ =>
      published (world_after r) = published w /\ db (world_after r) = db w
  end.

(** A call that throws, with a message that ends in the ReferenceError of
    the undeclared [pubsub] or in some other failure, and publishes
    nothing. *)
Definition throws_without_event {A : Type} (prefix : string) (w : World)
  (r : Completion A * World) : Prop :=
  (exists cause, outcome r = Thrown (prefix +s cause)) /\
  published (world_after r) = published w.

(** Lookup of an identity in the collection of a model. *)
Definition lookup {D : Type} (m : Mongoose.Model D) (oid : ObjectId) (s : Store)
  : option D :=
  List.find (fun d => Nat.eqb (Mongoose._id m d) oid) (Mongoose.collection m s).

(** A by-identity query on the collection of [m]: on a well-formed
    identity it returns a document of the collection with that identity,
    and it returns null, without an error, exactly when the collection has
    no document with that identity. *)
Definition finds_by_identity {D : Type} (m : Mongoose.Model D)
  (query : ID -> Async (option D)) : Prop :=
  forall (w : World) (oid : ObjectId),
    exists r : option D,
      outcome (query (Hex oid) w) = Returned r /\
      (forall d, r = Some d ->
                 In d (Mongoose.collection m (db w)) /\ Mongoose._id m d = oid) /\
      (r = None <->
       forall d, In d (Mongoose.collection m (db w)) -> Mongoose._id m d <> oid).

(** A call that reads only: the store and the published events are what
    they were. *)
Definition reads_only {A : Type} (w : World) (r : Completion A * World) : Prop :=
  db (world_after r) = db w /\ published (world_after r) = published w.

(** A call rejected before it reached the store: it throws a message that
    starts with [prefix] and the world is exactly what it was. *)
Definition rejected {A : Type} (prefix : string) (w : World)
  (r : Completion A * World) : Prop :=
  exists cause, r = (Thrown (prefix +s cause), w).

(** * Properties *)

(** ** Facts about the store operations *)

Section ModelFacts.

Context {D : Type} (m : Mongoose.Model D).

Lemma filter_all (l : list D) : List.filter Mongoose.all l = l.
Proof.
  induction l as [|d l IH]; simpl; [reflexivity | now rewrite IH].
Qed.

Lemma find_run (f : D -> bool) (w : World) :
  Mongoose.find m f w =
  (Returned (List.filter f (Mongoose.collection m (db w))),
   mkWorld (db w) (calls w ++ [(Mongoose.modelName m, op_find)]) (published w)).
Proof. reflexivity. Qed.

Lemma findOne_run (f : D -> bool) (w : World) :
  Mongoose.findOne m f w =
  (Returned (List.find f (Mongoose.collection m (db w))),
   mkWorld (db w) (calls w ++ [(Mongoose.modelName m, op_findOne)]) (published w)).
Proof. reflexivity. Qed.

Lemma findById_run (oid : ObjectId) (w : World) :
  Mongoose.findById m (Hex oid) w =
  (Returned (List.find (fun d => Nat.eqb (Mongoose._id m d) oid)
               (Mongoose.collection m (db w))),
   mkWorld (db w) (calls w ++ [(Mongoose.modelName m, op_findById)]) (published w)).
Proof. reflexivity. Qed.

(** No document with that identity: nothing is removed. *)
Lemma remove_first_absent (oid : ObjectId) (l : list D) :
  List.find (fun d => Nat.eqb (Mongoose._id m d) oid) l = None ->
  Mongoose.remove_first m oid l = (l, None).
Proof.
  induction l as [|d l IH]; simpl; [reflexivity|].
  destruct (Nat.eqb (Mongoose._id m d) oid); [discriminate|].
  intros H. now rewrite (IH H).
Qed.

(** A document with that identity: it is the one removed, and the
    collection loses exactly one document. *)
Lemma remove_first_present (oid : ObjectId) (l : list D) (d : D) :
  List.find (fun d => Nat.eqb (Mongoose._id m d) oid) l = Some d ->
  snd (Mongoose.remove_first m oid l) = Some d /\
  S (List.length (fst (Mongoose.remove_first m oid l))) = List.length l.
Proof.
  induction l as [|x l IH]; simpl; [discriminate|].
  destruct (Nat.eqb (Mongoose._id m x) oid).
  - intros [= ->]. now split.
  - intros H. destruct (IH H) as [H1 H2].
    destruct (Mongoose.remove_first m oid l) as [l' r]. simpl in *.
    split; [assumption | now rewrite H2].
Qed.

(** No document with that identity: the update changes nothing and finds
    nothing. *)
Lemma update_first_absent (oid : ObjectId) (change : D -> D) (l : list D) :
  List.find (fun d => Nat.eqb (Mongoose._id m d) oid) l = None ->
  Mongoose.update_first m oid change l = (l, None).
Proof.
  induction l as [|d l IH]; simpl; [reflexivity|].
  destruct (Nat.eqb (Mongoose._id m d) oid); [discriminate|].
  intros H. now rewrite (IH H).
Qed.

(** A document with that identity: it is replaced by its image, which is
    what a later lookup of the identity finds. *)
Lemma update_first_present (oid : ObjectId) (change : D -> D) (l : list D) (d : D) :
  (forall x, Mongoose._id m (change x) = Mongoose._id m x) ->
  List.find (fun d => Nat.eqb (Mongoose._id m d) oid) l = Some d ->
  snd (Mongoose.update_first m oid change l) = Some (change d) /\
  List.find (fun d => Nat.eqb (Mongoose._id m d) oid)
    (fst (Mongoose.update_first m oid change l)) = Some (change d).
Proof.
  intros Hid.
  induction l as [|x l IH]; simpl; [discriminate|].
  destruct (Nat.eqb (Mongoose._id m x) oid) eqn:E.
  - intros [= ->]. simpl. now rewrite Hid, E.
  - intros H. destruct (IH H) as [H1 H2].
    destruct (Mongoose.update_first m oid change l) as [l' r]. simpl in *.
    now rewrite E.
Qed.

(** Casting never touches the world, and the text of ObjectIds casts to
    those ObjectIds. *)
Lemma castObjectIds_Hex (path : string) (l : list ObjectId) (w : World) :
  Mongoose.castObjectIds m path (List.map Hex l) w = (Returned l, w).
Proof.
  induction l as [|o l IH]; simpl; [reflexivity|].
  unfold bind at 1. simpl. unfold bind at 1. now rewrite IH.
Qed.

Lemma castObjectIds_pure (path : string) (ids : list ID) (w : World) :
  snd (Mongoose.castObjectIds m path ids w) = w.
Proof.
  induction ids as [|id ids IH]; simpl; [reflexivity|].
  unfold bind at 1. destruct id as [oid|text]; simpl; [|reflexivity].
  unfold bind at 1.
  destruct (Mongoose.castObjectIds m path ids w) as [[l|msg] w'] eqn:E;
    simpl in *; assumption.
Qed.

End ModelFacts.

Lemma lookups_on_app (model : string) (a b : list StoreCall) :
  lookups_on model (a ++ b) = lookups_on model a + lookups_on model b.
Proof.
  unfold lookups_on. now rewrite List.filter_app, List.length_app.
Qed.

(** ** The product and order queries *)

(** C7. [products(onlyActive: true)] returns exactly the products whose
    status is ACTIVE: the result is the collection filtered on that status,
    so every returned product is ACTIVE and every ACTIVE product of the
    store is returned; the query is one filtered [find] on the store. *)
Theorem products_onlyActive_exact (w : World) :
  exists l : list ProductDoc,
    Query.products (value true) w =
      (Returned l,
       mkWorld (db w) (calls w ++ [("Product", op_find)]) (published w)) /\
    l = List.filter (Mongoose.field_equals product_status "ACTIVE")
          (Products (db w)) /\
    (forall p, In p l <->
               In p (Products (db w)) /\ product_status p = value "ACTIVE").
Proof.
  eexists. split; [reflexivity|]. split; [reflexivity|].
  intros p. rewrite List.filter_In. unfold Mongoose.field_equals.
  destruct (product_status p) as [| |s]; try (split; intros [_ H]; discriminate).
  rewrite String.eqb_eq. split; intros [Hin H]; (split; [exact Hin|]).
  - now rewrite H.
  - now injection H.
Qed.

(** C10. When [onlyActive] is absent, null or false, [products] returns the
    whole collection: products of any status, and products with no status,
    are all returned. *)
Theorem products_unfiltered (w : World) (onlyActive : Optional bool) :
  onlyActive <> value true ->
  Query.products onlyActive w =
    (Returned (Products (db w)),
     mkWorld (db w) (calls w ++ [("Product", op_find)]) (published w)).
Proof.
  intros H.
  assert (Hf : truthy onlyActive = false).
  { destruct onlyActive as [| |[|]]; try reflexivity. now elim H. }
  unfold Query.products, try_catch. rewrite Hf, find_run. simpl.
  now rewrite filter_all.
Qed.

Lemma products_unfiltered_witness :
  @undefined bool <> value true /\
  outcome (Query.products undefined (world_of shop)) =
    Returned [keyboard; mouse; cable].
Proof.
  split; [discriminate|].
  rewrite (products_unfiltered (world_of shop) undefined); [reflexivity|discriminate].
Defined.

(** The [orders] resolver never reads its argument. *)
Lemma orders_argument_unused (userId : Optional ID) (w : World) :
  Query.orders userId w =
    (Returned (Orders (db w)),
     mkWorld (db w) (calls w ++ [("Order", op_find)]) (published w)).
Proof.
  unfold Query.orders, try_catch, bind. rewrite find_run. simpl.
  now rewrite filter_all.
Qed.

(** C6. In the shop, [orders(userId: 11)] returns all three orders, among
    them the order of user 12 and the order of user 13: the [userId]
    argument that the schema declares does not restrict the result. *)
Theorem orders_userId_not_applied :
  outcome (Query.orders (value (Hex 11)) (world_of shop)) =
    Returned [order_a; order_b; order_c] /\
  order_user order_b = value 12 /\
  order_user order_c = value 13.
Proof. repeat split. Qed.

(** ** The relationship fields of an order *)

Lemma id_in_references (o : OrderDoc) (p : ProductDoc) :
  Mongoose.id_in Models.Product (order_products o) p =
  existsb (Nat.eqb (product_id p)) (references o).
Proof.
  unfold Mongoose.id_in, references. now destruct (order_products o).
Qed.

Lemma existsb_same_elements (x : ObjectId) (l l' : list ObjectId) :
  (forall y, In y l <-> In y l') ->
  existsb (Nat.eqb x) l = existsb (Nat.eqb x) l'.
Proof.
  intros H.
  destruct (existsb (Nat.eqb x) l) eqn:E, (existsb (Nat.eqb x) l') eqn:E';
    try reflexivity.
  - apply List.existsb_exists in E as [y [Hy Hxy]].
    assert (F : existsb (Nat.eqb x) l' = true).
    { apply List.existsb_exists. exists y. split; [now apply H | assumption]. }
    congruence.
  - apply List.existsb_exists in E' as [y [Hy Hxy]].
    assert (F : existsb (Nat.eqb x) l = true).
    { apply List.existsb_exists. exists y. split; [now apply H | assumption]. }
    congruence.
Qed.

(** The claim of C9 fails on [order_a], whose references [2; 1; 1] all
    exist: the field resolves to the keyboard (1) and then the mouse (2),
    each once. *)
Lemma products_field_not_positional :
  ~ (forall (w : World) (o : OrderDoc) (ps : list ProductDoc),
        outcome (Order.products o w) = Returned ps ->
        positionally_aligned (references o) ps).
Proof.
  intros H.
  specialize (H (world_of shop) order_a [keyboard; mouse] eq_refl).
  discriminate H.
Qed.

(** C9, amended. The resolved [products] field of an order is the
    sub-list of the store's product collection whose identity occurs among
    the order's references: in the collection's order, each stored product
    once.  It depends on the set of referenced identities only, not on the
    order or the multiplicity of the reference list. *)
Theorem products_field_is_membership_filter (w : World) (o : OrderDoc) :
  exists ps : list ProductDoc,
    Order.products o w =
      (Returned ps,
       mkWorld (db w) (calls w ++ [("Product", op_find)]) (published w)) /\
    ps = List.filter (fun p => existsb (Nat.eqb (product_id p)) (references o))
           (Products (db w)) /\
    (forall p, In p ps <->
               In p (Products (db w)) /\ In (product_id p) (references o)) /\
    (forall o',
        (forall x, In x (references o) <-> In x (references o')) ->
        outcome (Order.products o' w) = Returned ps).
Proof.
  exists (List.filter (Mongoose.id_in Models.Product (order_products o))
            (Products (db w))).
  split; [reflexivity|]. split; [|split].
  - apply List.filter_ext. intros p. apply id_in_references.
  - intros p. rewrite List.filter_In, id_in_references, List.existsb_exists.
    split.
    + intros [Hin [x [Hx E]]]. apply Nat.eqb_eq in E. subst x. now split.
    + intros [Hin Hr]. split; [assumption|].
      exists (product_id p). split; [assumption | apply Nat.eqb_refl].
  - intros o' Hsame. unfold Order.products, outcome. rewrite find_run. simpl.
    f_equal. apply List.filter_ext. intros p.
    rewrite !id_in_references. symmetry. now apply existsb_same_elements.
Qed.

(** One order with both relationship fields selected: two store calls,
    and the per-record resolution as the result. *)
Lemma completeOrder_run (o : OrderDoc) (w : World) :
  Execute.completeOrder o w =
    (Returned (resolve_per_record (db w) o),
     mkWorld (db w) (calls w ++ calls_per_order) (published w)).
Proof.
  unfold Execute.completeOrder, bind, Execute.field, Order.products, Order.user,
    try_catch, bind.
  rewrite find_run, findOne_run. simpl.
  unfold resolve_per_record, calls_per_order. now rewrite <- List.app_assoc.
Qed.

Lemma completeOrders_run (l : list OrderDoc) (w : World) :
  Execute.completeOrders l w =
    (Returned (List.map (resolve_per_record (db w)) l),
     mkWorld (db w) (calls w ++ List.flat_map (fun _ => calls_per_order) l)
       (published w)).
Proof.
  revert w. induction l as [|o l IH]; intros w; simpl.
  - unfold ret. rewrite List.app_nil_r. now destruct w.
  - unfold bind at 1. rewrite completeOrder_run.
    unfold bind at 1. rewrite IH. simpl.
    now rewrite <- List.app_assoc.
Qed.

Lemma lookups_on_flat_map (model : string) (l : list OrderDoc) :
  lookups_on model (List.flat_map (fun _ => calls_per_order) l) =
  List.length l * lookups_on model calls_per_order.
Proof.
  induction l as [|o l IH]; simpl; [reflexivity|].
  change (lookups_on model (calls_per_order ++
            List.flat_map (fun _ => calls_per_order) l) =
          lookups_on model calls_per_order +
          List.length l * lookups_on model calls_per_order).
  now rewrite lookups_on_app, IH.
Qed.

(** The claim of C1 fails in the shop: resolving the three orders issues
    three lookups on users and three on products. *)
Lemma orders_resolution_not_batched :
  ~ (forall (s : Store) (userId : Optional ID) (rs : list Execute.OrderResult)
            (w' : World),
        Execute.orders userId (world_of s) = (Returned rs, w') ->
        lookups_on "User" (calls w') <= 1 /\
        lookups_on "Product" (calls w') <= 1).
Proof.
  intros H.
  destruct (H shop undefined _ _ eq_refl) as [HU _].
  vm_compute in HU. lia.
Qed.

(** C1, amended. Resolving the relationship fields of a result set of
    orders issues one lookup on users and one lookup on products for every
    order of the result set (so at most one per referenced type only when
    the result set has at most one order), changes neither the store nor
    the published events, and its output is the naive per-record
    resolution of every order. *)
Theorem orders_resolution_per_record (w : World) (userId : Optional ID) :
  exists w' : World,
    Execute.orders userId w =
      (Returned (List.map (resolve_per_record (db w)) (Orders (db w))), w') /\
    db w' = db w /\
    published w' = published w /\
    lookups_on "User" (calls w') =
      lookups_on "User" (calls w) + List.length (Orders (db w)) /\
    lookups_on "Product" (calls w') =
      lookups_on "Product" (calls w) + List.length (Orders (db w)).
Proof.
  eexists. split.
  - unfold Execute.orders, bind. rewrite orders_argument_unused.
    rewrite completeOrders_run. simpl. reflexivity.
  - simpl. repeat split.
    + rewrite !lookups_on_app, lookups_on_flat_map.
      change (lookups_on "User" [("Order", op_find)]) with 0.
      change (lookups_on "User" calls_per_order) with 1. lia.
    + rewrite !lookups_on_app, lookups_on_flat_map.
      change (lookups_on "Product" [("Order", op_find)]) with 0.
      change (lookups_on "Product" calls_per_order) with 1. lia.
Qed.

(** ** Dangling references *)

Lemma order_run (oid : ObjectId) (w : World) :
  Query.order (Hex oid) w =
    (Returned (List.find (fun d => Nat.eqb (order_id d) oid) (Orders (db w))),
     mkWorld (db w) (calls w ++ [("Order", op_findById)]) (published w)).
Proof. reflexivity. Qed.

(** The claim of C8 fails for the product reference of [order_c]: product 9
    is not in the store, and the resolved [products] field holds the
    keyboard alone; nothing in it stands for the missing product. *)
Lemma dangling_product_has_no_entry :
  ~ (forall (w w' : World) (oid : ObjectId) (r : Execute.OrderResult),
        Execute.order (Hex oid) w = (Returned (Some r), w') ->
        exists ps : list ProductDoc,
          Execute.products_field r = Returned ps /\
          entry_for_every_reference (references (Execute.base r)) ps).
Proof.
  intros H.
  destruct (H (world_of shop) _ 23 _ eq_refl) as [ps [Hps Hlen]].
  simpl in Hps. injection Hps as <-. discriminate Hlen.
Qed.

(** C8, amended. Reading an order that is in the store succeeds and
    returns the order whatever its references point to.  The [user] field
    resolves to the stored user with the referenced identity, and to the
    absent value when there is none; the [products] field resolves to the
    stored products among the references, and a reference to a product
    that is not in the store is left out of it. *)
Theorem order_with_dangling_references (w : World) (oid : ObjectId) (o : OrderDoc) :
  List.find (fun d => Nat.eqb (order_id d) oid) (Orders (db w)) = Some o ->
  exists (r : Execute.OrderResult) (w' : World) (ps : list ProductDoc),
    Execute.order (Hex oid) w = (Returned (Some r), w') /\
    db w' = db w /\
    Execute.base r = o /\
    Execute.user_field r =
      Returned (List.find (Mongoose.id_equals Models.User (order_user o))
                  (Users (db w))) /\
    ((forall u, In u (Users (db w)) -> order_user o <> value (user_id u)) ->
     Execute.user_field r = Returned None) /\
    Execute.products_field r = Returned ps /\
    (forall p, In p ps <->
               In p (Products (db w)) /\ In (product_id p) (references o)) /\
    (forall ref,
        (forall p, In p (Products (db w)) -> product_id p <> ref) ->
        ~ In ref (List.map product_id ps)).
Proof.
  intros Hfind.
  assert (Hmem : forall p,
             In p (List.filter (Mongoose.id_in Models.Product (order_products o))
                     (Products (db w))) <->
             In p (Products (db w)) /\ In (product_id p) (references o)).
  { intros p. rewrite List.filter_In, id_in_references, List.existsb_exists.
    split.
    - intros [Hin [x [Hx E]]]. apply Nat.eqb_eq in E. subst x. now split.
    - intros [Hin Hr]. split; [assumption|].
      exists (product_id p). split; [assumption | apply Nat.eqb_refl]. }
  exists (resolve_per_record (db w) o).
  eexists. eexists.
  split.
  { unfold Execute.order. unfold bind at 1. rewrite order_run, Hfind.
    unfold bind at 1. rewrite completeOrder_run. reflexivity. }
  simpl. do 3 (split; [reflexivity|]). split; [|split; [reflexivity|split]].
  - intros Hnone.
    f_equal. destruct (List.find _ (Users (db w))) as [u|] eqn:E; [|reflexivity].
    apply List.find_some in E as [Hin Heq]. exfalso.
    apply (Hnone u Hin). unfold Mongoose.id_equals in Heq. simpl in Heq.
    destruct (order_user o) as [| |x]; try discriminate.
    apply Nat.eqb_eq in Heq. now rewrite Heq.
  - exact Hmem.
  - intros ref Hmissing Hin.
    apply List.in_map_iff in Hin as [p [Hp Hin]].
    apply Hmem in Hin as [Hin _]. exact (Hmissing p Hin Hp).
Qed.

Lemma order_with_dangling_references_witness :
  List.find (fun d => Nat.eqb (order_id d) 23) (Orders (db (world_of shop)))
    = Some order_c /\
  exists (r : Execute.OrderResult) (w' : World),
    Execute.order (Hex 23) (world_of shop) = (Returned (Some r), w') /\
    Execute.base r = order_c /\
    Execute.user_field r = Returned None /\
    Execute.products_field r = Returned [keyboard].
Proof.
  split; [reflexivity|].
  destruct (order_with_dangling_references (world_of shop) 23 order_c eq_refl)
    as [r [w' [ps [Hrun [_ [Hbase [Huser _]]]]]]].
  exists r, w'. split; [exact Hrun|]. split; [exact Hbase|].
  injection Hrun as Hr _. subst r. split; reflexivity.
Defined.

(** ** The write operations, run on a well-formed identity *)

Section WriteFacts.

Context {D : Type} (m : Mongoose.Model D).

Lemma findByIdAndDelete_run (oid : ObjectId) (w : World) :
  Mongoose.findByIdAndDelete m (Hex oid) w =
    (Returned (snd (Mongoose.remove_first m oid (Mongoose.collection m (db w)))),
     mkWorld
       (Mongoose.set_collection m
          (fst (Mongoose.remove_first m oid (Mongoose.collection m (db w))))
          (db w))
       (calls w ++ [(Mongoose.modelName m, op_findByIdAndDelete)])
       (published w)).
Proof.
  unfold Mongoose.findByIdAndDelete, bind. simpl.
  now destruct (Mongoose.remove_first m oid (Mongoose.collection m (db w))).
Qed.

Lemma findByIdAndUpdate_run (oid : ObjectId) (update : Async (D -> D))
  (change : D -> D) (w : World) :
  update w = (Returned change, w) ->
  Mongoose.findByIdAndUpdate m (Hex oid) update w =
    (Returned (snd (Mongoose.update_first m oid change (Mongoose.collection m (db w)))),
     mkWorld
       (Mongoose.set_collection m
          (fst (Mongoose.update_first m oid change (Mongoose.collection m (db w))))
          (db w))
       (calls w ++ [(Mongoose.modelName m, op_findByIdAndUpdate)])
       (published w)).
Proof.
  intros H. unfold Mongoose.findByIdAndUpdate, bind. simpl. rewrite H. simpl.
  now destruct (Mongoose.update_first m oid change (Mongoose.collection m (db w))).
Qed.

(** An update object that fails to cast: nothing reaches the store. *)
Lemma findByIdAndUpdate_cast_failure (oid : ObjectId) (update : Async (D -> D))
  (message : string) (w : World) :
  update w = (Thrown message, w) ->
  Mongoose.findByIdAndUpdate m (Hex oid) update w = (Thrown message, w).
Proof.
  intros H. unfold Mongoose.findByIdAndUpdate, bind. simpl. now rewrite H.
Qed.

(** A malformed identity: the cast throws and nothing reaches the store. *)
Lemma findByIdAndDelete_malformed (text : string) (w : World) :
  Mongoose.findByIdAndDelete m (Malformed text) w =
    (Thrown (Mongoose.CastError_message text "_id" (Mongoose.modelName m)), w).
Proof. reflexivity. Qed.

End WriteFacts.

Lemma castOptional_ids_Hex {D : Type} (m : Mongoose.Model D) (path : string)
  (l : Optional (list ObjectId)) (w : World) :
  Mongoose.castOptional (Mongoose.castObjectIds m path)
    (Optional_map (List.map Hex) l) w = (Returned l, w).
Proof.
  destruct l as [| |l]; try reflexivity.
  simpl. unfold bind. now rewrite castObjectIds_Hex.
Qed.

Lemma Order_castUpdate_Hex (products : Optional (list ObjectId))
  (user : Optional ObjectId) (total : Optional Z) (status : Optional string)
  (w : World) :
  Models.Order_castUpdate (Optional_map (List.map Hex) products)
    (Optional_map Hex user) total status w =
    (Returned (Models.Order_set products user total status), w).
Proof.
  unfold Models.Order_castUpdate. unfold bind at 1.
  rewrite castOptional_ids_Hex. now destruct user.
Qed.

(** The update object of an order either casts, keeping absent keys
    absent, or throws; the world is untouched either way. *)
Lemma Order_castUpdate_cases (products : Optional (list ID)) (user : Optional ID)
  (total : Optional Z) (status : Optional string) (w : World) :
  (exists ps u,
      Models.Order_castUpdate products user total status w =
        (Returned (Models.Order_set ps u total status), w) /\
      (products = undefined -> ps = undefined) /\
      (user = undefined -> u = undefined)) \/
  (exists message,
      Models.Order_castUpdate products user total status w = (Thrown message, w)).
Proof.
  unfold Models.Order_castUpdate.
  assert (Hps : (exists ps,
             Mongoose.castOptional (Mongoose.castObjectIds Models.Order "products")
               products w = (Returned ps, w) /\
             (products = undefined -> ps = undefined)) \/
          (exists message,
             Mongoose.castOptional (Mongoose.castObjectIds Models.Order "products")
               products w = (Thrown message, w))).
  { destruct products as [| |l].
    - left. exists undefined. now split.
    - left. exists null. split; [reflexivity | discriminate].
    - simpl. unfold bind.
      pose proof (castObjectIds_pure Models.Order "products" l w) as Hw.
      destruct (Mongoose.castObjectIds Models.Order "products" l w)
        as [[oids|message] w1]; simpl in Hw; subst w1.
      + left. exists (value oids). split; [reflexivity | discriminate].
      + right. now exists message. }
  destruct Hps as [[ps [Hps Hund]] | [message Hps]].
  - destruct user as [| |[oid|text]].
    + left. exists ps, undefined.
      split; [unfold bind; now rewrite Hps | now split].
    + left. exists ps, null.
      split; [unfold bind; now rewrite Hps | split; [assumption | discriminate]].
    + left. exists ps, (value oid).
      split; [unfold bind; now rewrite Hps | split; [assumption | discriminate]].
    + right. eexists. unfold bind. rewrite Hps. reflexivity.
  - right. exists message. unfold bind. now rewrite Hps.
Qed.

Lemma Product_lawful : lawful Models.Product.
Proof. split; [now intros [] | reflexivity]. Qed.

Lemma User_lawful : lawful Models.User.
Proof. split; [now intros [] | reflexivity]. Qed.

Lemma Order_lawful : lawful Models.Order.
Proof. split; [now intros [] | reflexivity]. Qed.

(** ** Mutations and the event bus *)

(** C2. As the file is written, [addProduct] on any store and with any
    arguments writes the new product, then throws: [pubsub] is not
    declared, the ReferenceError of [pubsub.publish] is caught and thrown
    again.  The write stays, no event is published, and the caller gets an
    error instead of the product. *)
Theorem addProduct_throws_after_the_write (w : World) (name : string) (price : Z)
  (category : Optional string) (status : Optional StatusEnum) :
  exists w' : World,
    Mutation.addProduct module_pubsub name price category status w =
      (Thrown "Failed to add product: pubsub is not defined", w') /\
    Products (db w') =
      Products (db w) ++
      [mkProduct (next_id (db w)) (value name) (value price) category
         (Optional_map StatusEnum_name status)] /\
    published w' = published w.
Proof. eexists. repeat split. Qed.

(** The same failure in every mutation, shown on the shop: each write is
    carried out and each call throws on the undeclared [pubsub]. *)
Lemma every_mutation_throws_as_written :
  let w := world_of shop in
  outcome (Mutation.updateProduct module_pubsub (Hex 1) (value "Board")
             undefined undefined undefined w)
    = Thrown "Failed to update product: pubsub is not defined" /\
  outcome (Mutation.deleteProduct module_pubsub (Hex 1) w)
    = Thrown "Failed to delete product: pubsub is not defined" /\
  outcome (Mutation.addUser module_pubsub "user_3" "user_3@ymail.com" CUSTOMER w)
    = Thrown "Failed to add user: pubsub is not defined" /\
  outcome (Mutation.updateUser module_pubsub (Hex 11) undefined undefined
             (value ADMIN) w)
    = Thrown "Failed to update user: pubsub is not defined" /\
  outcome (Mutation.deleteUser module_pubsub (Hex 11) w)
    = Thrown "Failed to delete user: pubsub is not defined" /\
  outcome (Mutation.addOrder module_pubsub [Hex 1] (Hex 11) 99%Z PENDING w)
    = Thrown "Failed to add order: pubsub is not defined" /\
  outcome (Mutation.updateOrder module_pubsub (Hex 21) undefined undefined
             undefined (value CANCELLED) w)
    = Thrown "Failed to update order: pubsub is not defined" /\
  outcome (Mutation.deleteOrder module_pubsub (Hex 21) w)
    = Thrown "Failed to delete order: pubsub is not defined" /\
  Products (db (world_after (Mutation.deleteProduct module_pubsub (Hex 1) w)))
    = [mouse; cable].
Proof. repeat split. Qed.

(** With [pubsub] declared, a successful write is followed by exactly one
    event and the created entity is returned. *)
Lemma addProduct_publishes_once (bus : PubSub) (w : World) (name : string)
  (price : Z) (category : Optional string) (status : Optional StatusEnum) :
  let product :=
    mkProduct (next_id (db w)) (value name) (value price) category
      (Optional_map StatusEnum_name status) in
  exists w' : World,
    Mutation.addProduct (Some bus) name price category status w =
      (Returned product, w') /\
    Products (db w') = Products (db w) ++ [product] /\
    published w' = published w ++ [("PRODUCT_ADDED", productAdded product)].
Proof. eexists. repeat split. Qed.

(** A write that fails publishes nothing and writes nothing, whatever the
    binding of [pubsub]: an order whose user reference is no ObjectId. *)
Lemma addOrder_failed_write_publishes_nothing (pubsub : option PubSub)
  (w : World) (products : list ObjectId) (text : string) (total : Z)
  (status : OrderStatusEnum) :
  exists message : string,
    Mutation.addOrder pubsub (List.map Hex products) (Malformed text) total status w
      = (Thrown message, w).
Proof.
  eexists. unfold Mutation.addOrder, try_catch. unfold bind at 1.
  unfold Mongoose.create. unfold bind at 1. unfold try_catch at 1.
  unfold bind at 1. rewrite castObjectIds_Hex. reflexivity.
Qed.

(** ** Deleting *)

Lemma delete_resolver (D : Type) (m : Mongoose.Model D) (bus : PubSub)
  (topic : string) (payload : ID -> Payload) (handler : string -> Async bool) :
  lawful m ->
  removes_and_returns_true m
    (fun id =>
       try_catch
         (Mongoose.findByIdAndDelete m id ;;
          pubsub_publish (Some bus) topic (payload id) ;;
          ret true)
         handler)
    topic payload.
Proof.
  intros [Hget Hset] w oid before found.
  assert (Hrun : forall v,
    try_catch
      (Mongoose.findByIdAndDelete m (Hex oid) ;;
       pubsub_publish (Some bus) topic (payload (Hex oid)) ;;
       ret true) handler v =
    (Returned true,
     mkWorld
       (Mongoose.set_collection m
          (fst (Mongoose.remove_first m oid (Mongoose.collection m (db v))))
          (db v))
       (calls v ++ [(Mongoose.modelName m, op_findByIdAndDelete)])
       (published v ++ [(topic, payload (Hex oid))]))).
  { intros v. unfold try_catch. unfold bind at 1.
    now rewrite findByIdAndDelete_run. }
  eexists. split; [apply Hrun|]. simpl. rewrite Hset.
  split; [reflexivity|]. split; [reflexivity|]. split; [|split].
  - intros Hnone. subst found before.
    rewrite (remove_first_absent m oid _ Hnone). apply Hget.
  - intros Hsome. subst found.
    destruct (List.find _ before) as [d|] eqn:E; [|now elim Hsome].
    now destruct (remove_first_present m oid before d E).
  - unfold outcome. now rewrite Hrun.
Qed.

(** The claim of C3 fails in the shop for product 9, which is not in the
    store: as written the call throws, and with [pubsub] declared it
    returns true; it returns false in neither case.  Deleting the
    keyboard twice, with [pubsub] declared, returns true and then true
    again. *)
Lemma delete_of_absent_identity_is_not_false :
  List.find (fun d => Nat.eqb (product_id d) 9) (Products shop) = None /\
  outcome (Mutation.deleteProduct module_pubsub (Hex 9) (world_of shop))
    <> Returned false /\
  outcome (Mutation.deleteProduct (Some new_PubSub) (Hex 9) (world_of shop))
    = Returned true /\
  (let first := Mutation.deleteProduct (Some new_PubSub) (Hex 1) (world_of shop) in
   let second := Mutation.deleteProduct (Some new_PubSub) (Hex 1) (world_after first) in
   outcome first = Returned true /\ outcome second = Returned true).
Proof.
  split; [reflexivity|]. split; [discriminate|]. split; [reflexivity|].
  split; reflexivity.
Qed.

(** C3, amended. With the event bus declared, [deleteProduct],
    [deleteUser] and [deleteOrder] on a well-formed identity remove the
    entity with that identity if there is one and return true whether or
    not there was one: deleting an identity that is not in the store
    leaves the store unchanged and returns true, not false and not an
    error, and deleting the same identity twice returns true both times. *)
Theorem delete_returns_true_always (bus : PubSub) :
  removes_and_returns_true Models.Product (Mutation.deleteProduct (Some bus))
    "PRODUCT_DELETED" productDeleted /\
  removes_and_returns_true Models.User (Mutation.deleteUser (Some bus))
    "USER_DELETED" userDeleted /\
  removes_and_returns_true Models.Order (Mutation.deleteOrder (Some bus))
    "ORDER_DELETED" orderDeleted.
Proof.
  split; [|split].
  - exact (delete_resolver _ Models.Product bus _ _ _ Product_lawful).
  - exact (delete_resolver _ Models.User bus _ _ _ User_lawful).
  - exact (delete_resolver _ Models.Order bus _ _ _ Order_lawful).
Qed.

Lemma delete_returns_true_always_witness :
  exists w' : World,
    Mutation.deleteProduct (Some new_PubSub) (Hex 1) (world_of shop)
      = (Returned true, w') /\
    Products (db w') = [mouse; cable] /\
    outcome (Mutation.deleteProduct (Some new_PubSub) (Hex 1) w') = Returned true.
Proof.
  destruct (proj1 (delete_returns_true_always new_PubSub) (world_of shop) 1)
    as [w' [Hrun [Hcol [_ [_ [_ Hagain]]]]]].
  exists w'. split; [exact Hrun|]. split; [exact Hcol | exact Hagain].
Defined.

(** ** Updating *)

Lemma updateProduct_run (pubsub : option PubSub) (oid : ObjectId)
  (name : Optional string) (price : Optional Z) (category : Optional string)
  (status : Optional StatusEnum) (w : World) :
  let change :=
    Models.Product_set name price category (Optional_map StatusEnum_name status) in
  let found := Mongoose.update_first Models.Product oid change (Products (db w)) in
  let w1 :=
    mkWorld (mkStore (fst found) (Users (db w)) (Orders (db w)) (next_id (db w)))
      (calls w ++ [("Product", op_findByIdAndUpdate)]) (published w) in
  Mutation.updateProduct pubsub (Hex oid) name price category status w =
    match pubsub with
    | None => (Thrown "Failed to update product: pubsub is not defined", w1)
    | Some _ =>
        (Returned (snd found),
         mkWorld (db w1) (calls w1)
           (published w ++ [("PRODUCT_UPDATED", productUpdated (snd found))]))
    end.
Proof.
  cbv zeta.
  unfold Mutation.updateProduct, try_catch. unfold bind at 1.
  rewrite (findByIdAndUpdate_run Models.Product oid (ret _) _ w eq_refl).
  now destruct pubsub.
Qed.

Lemma updateUser_run (pubsub : option PubSub) (oid : ObjectId)
  (username email : Optional string) (role : Optional RoleEnum) (w : World) :
  let change :=
    Models.User_set username email (Optional_map RoleEnum_name role) in
  let found := Mongoose.update_first Models.User oid change (Users (db w)) in
  let w1 :=
    mkWorld (mkStore (Products (db w)) (fst found) (Orders (db w)) (next_id (db w)))
      (calls w ++ [("User", op_findByIdAndUpdate)]) (published w) in
  Mutation.updateUser pubsub (Hex oid) username email role w =
    match pubsub with
    | None => (Thrown "Failed to update user: pubsub is not defined", w1)
    | Some _ =>
        (Returned (snd found),
         mkWorld (db w1) (calls w1)
           (published w ++ [("USER_UPDATED", userUpdated (snd found))]))
    end.
Proof.
  cbv zeta.
  unfold Mutation.updateUser, try_catch. unfold bind at 1.
  rewrite (findByIdAndUpdate_run Models.User oid (ret _) _ w eq_refl).
  now destruct pubsub.
Qed.

(** [updateOrder] when the update object casts to [change]. *)
Lemma updateOrder_run (pubsub : option PubSub) (oid : ObjectId)
  (products : Optional (list ID)) (user : Optional ID) (total : Optional Z)
  (status : Optional OrderStatusEnum) (change : OrderDoc -> OrderDoc) (w : World) :
  Models.Order_castUpdate products user total
    (Optional_map OrderStatusEnum_name status) w = (Returned change, w) ->
  let found := Mongoose.update_first Models.Order oid change (Orders (db w)) in
  let w1 :=
    mkWorld (mkStore (Products (db w)) (Users (db w)) (fst found) (next_id (db w)))
      (calls w ++ [("Order", op_findByIdAndUpdate)]) (published w) in
  Mutation.updateOrder pubsub (Hex oid) products user total status w =
    match pubsub with
    | None => (Thrown "Failed to update order: pubsub is not defined", w1)
    | Some _ =>
        (Returned (snd found),
         mkWorld (db w1) (calls w1)
           (published w ++ [("ORDER_UPDATED", orderUpdated (snd found))]))
    end.
Proof.
  intros Hcast. cbv zeta.
  unfold Mutation.updateOrder, try_catch. unfold bind at 1.
  rewrite (findByIdAndUpdate_run Models.Order oid _ change w Hcast).
  now destruct pubsub.
Qed.

(** [updateOrder] when the update object fails to cast: the world is
    untouched. *)
Lemma updateOrder_cast_failure (pubsub : option PubSub) (oid : ObjectId)
  (products : Optional (list ID)) (user : Optional ID) (total : Optional Z)
  (status : Optional OrderStatusEnum) (message : string) (w : World) :
  Models.Order_castUpdate products user total
    (Optional_map OrderStatusEnum_name status) w = (Thrown message, w) ->
  Mutation.updateOrder pubsub (Hex oid) products user total status w =
    (Thrown ("Failed to update order: " +s message), w).
Proof.
  intros Hcast.
  unfold Mutation.updateOrder, try_catch. unfold bind at 1.
  now rewrite (findByIdAndUpdate_cast_failure Models.Order oid _ message w Hcast).
Qed.

(** The claim of C4 fails in the shop for product 9, which is not in the
    store.  With [pubsub] declared the update returns the absent value and
    no error.  As written the call throws, and it throws the very same
    error for product 1, which is in the store: the error reports the
    undeclared [pubsub], not a missing identity. *)
Lemma update_of_absent_identity_is_no_NotFound :
  List.find (fun d => Nat.eqb (product_id d) 9) (Products shop) = None /\
  outcome (Mutation.updateProduct (Some new_PubSub) (Hex 9) (value "Board")
             undefined undefined undefined (world_of shop))
    = Returned None /\
  outcome (Mutation.updateProduct module_pubsub (Hex 9) (value "Board")
             undefined undefined undefined (world_of shop))
    = outcome (Mutation.updateProduct module_pubsub (Hex 1) (value "Board")
                 undefined undefined undefined (world_of shop)).
Proof. repeat split. Qed.

(** C4, amended. With the event bus declared, [updateProduct],
    [updateUser] and [updateOrder] on a well-formed identity that is not
    in the store (and, for an order, well-formed references in the
    request) return the absent value without an error: the store is left
    as it was and one update event that carries the absent value is
    published. *)
Theorem update_of_absent_identity_returns_null (bus : PubSub) (w : World)
  (oid : ObjectId) :
  (List.find (fun d => Nat.eqb (product_id d) oid) (Products (db w)) = None ->
   forall name price category status,
     Mutation.updateProduct (Some bus) (Hex oid) name price category status w =
       (Returned None,
        mkWorld (db w) (calls w ++ [("Product", op_findByIdAndUpdate)])
          (published w ++ [("PRODUCT_UPDATED", productUpdated None)]))) /\
  (List.find (fun d => Nat.eqb (user_id d) oid) (Users (db w)) = None ->
   forall username email role,
     Mutation.updateUser (Some bus) (Hex oid) username email role w =
       (Returned None,
        mkWorld (db w) (calls w ++ [("User", op_findByIdAndUpdate)])
          (published w ++ [("USER_UPDATED", userUpdated None)]))) /\
  (List.find (fun d => Nat.eqb (order_id d) oid) (Orders (db w)) = None ->
   forall products user total status,
     Mutation.updateOrder (Some bus) (Hex oid)
       (Optional_map (List.map Hex) products) (Optional_map Hex user)
       total status w =
       (Returned None,
        mkWorld (db w) (calls w ++ [("Order", op_findByIdAndUpdate)])
          (published w ++ [("ORDER_UPDATED", orderUpdated None)]))).
Proof.
  split; [|split]; intros Hnone.
  - intros name price category status.
    pose proof (updateProduct_run (Some bus) oid name price category status w) as E.
    cbv zeta in E. rewrite E.
    rewrite (update_first_absent Models.Product oid _ _ Hnone). simpl.
    now destruct (db w).
  - intros username email role.
    pose proof (updateUser_run (Some bus) oid username email role w) as E.
    cbv zeta in E. rewrite E.
    rewrite (update_first_absent Models.User oid _ _ Hnone). simpl.
    now destruct (db w).
  - intros products user total status.
    pose proof (updateOrder_run (Some bus) oid _ _ total status _ w
                  (Order_castUpdate_Hex products user total _ w)) as E.
    cbv zeta in E. rewrite E.
    rewrite (update_first_absent Models.Order oid _ _ Hnone). simpl.
    now destruct (db w).
Qed.

Lemma update_of_absent_identity_returns_null_witness :
  List.find (fun d => Nat.eqb (product_id d) 9) (Products (db (world_of shop)))
    = None /\
  outcome (Mutation.updateProduct (Some new_PubSub) (Hex 9) (value "Board")
             undefined undefined undefined (world_of shop))
    = Returned None.
Proof.
  split; [reflexivity|].
  now rewrite (proj1 (update_of_absent_identity_returns_null new_PubSub
                        (world_of shop) 9) eq_refl).
Defined.

(** C5. For an entity that is in the store, whatever the binding of
    [pubsub] and whatever the request: after [updateProduct], [updateUser]
    or [updateOrder] the identity still finds an entity, with the same
    identity, and every field whose key the request omitted has the value
    it had before.  With the event bus declared, that entity is also what
    [updateProduct] and [updateUser] return. *)
Theorem partial_update_keeps_omitted_fields (pubsub : option PubSub) (w : World)
  (oid : ObjectId) :
  (forall d name price category status,
      List.find (fun x => Nat.eqb (product_id x) oid) (Products (db w)) = Some d ->
      let r := Mutation.updateProduct pubsub (Hex oid) name price category status w in
      exists d',
        List.find (fun x => Nat.eqb (product_id x) oid)
          (Products (db (world_after r))) = Some d' /\
        (pubsub <> None -> outcome r = Returned (Some d')) /\
        product_id d' = product_id d /\
        (name = undefined -> product_name d' = product_name d) /\
        (price = undefined -> product_price d' = product_price d) /\
        (category = undefined -> product_category d' = product_category d) /\
        (status = undefined -> product_status d' = product_status d)) /\
  (forall d username email role,
      List.find (fun x => Nat.eqb (user_id x) oid) (Users (db w)) = Some d ->
      let r := Mutation.updateUser pubsub (Hex oid) username email role w in
      exists d',
        List.find (fun x => Nat.eqb (user_id x) oid)
          (Users (db (world_after r))) = Some d' /\
        (pubsub <> None -> outcome r = Returned (Some d')) /\
        user_id d' = user_id d /\
        (username = undefined -> user_username d' = user_username d) /\
        (email = undefined -> user_email d' = user_email d) /\
        (role = undefined -> user_role d' = user_role d)) /\
  (forall d products user total status,
      List.find (fun x => Nat.eqb (order_id x) oid) (Orders (db w)) = Some d ->
      let r := Mutation.updateOrder pubsub (Hex oid) products user total status w in
      exists d',
        List.find (fun x => Nat.eqb (order_id x) oid)
          (Orders (db (world_after r))) = Some d' /\
        order_id d' = order_id d /\
        (products = undefined -> order_products d' = order_products d) /\
        (user = undefined -> order_user d' = order_user d) /\
        (total = undefined -> order_total d' = order_total d) /\
        (status = undefined -> order_status d' = order_status d)).
Proof.
  split; [|split].
  - intros d name price category status Hfind r.
    pose proof (updateProduct_run pubsub oid name price category status w) as E.
    cbv zeta in E. subst r. rewrite E. clear E.
    destruct (update_first_present Models.Product oid
                (Models.Product_set name price category
                   (Optional_map StatusEnum_name status))
                _ d (fun x => eq_refl) Hfind) as [Hret Hdb].
    eexists. split; [|split].
    + destruct pubsub; exact Hdb.
    + intros Hbus. destruct pubsub; [|now elim Hbus].
      unfold outcome. simpl. now rewrite Hret.
    + split; [reflexivity|].
      repeat split; intros ->; reflexivity.
  - intros d username email role Hfind r.
    pose proof (updateUser_run pubsub oid username email role w) as E.
    cbv zeta in E. subst r. rewrite E. clear E.
    destruct (update_first_present Models.User oid
                (Models.User_set username email (Optional_map RoleEnum_name role))
                _ d (fun x => eq_refl) Hfind) as [Hret Hdb].
    eexists. split; [|split].
    + destruct pubsub; exact Hdb.
    + intros Hbus. destruct pubsub; [|now elim Hbus].
      unfold outcome. simpl. now rewrite Hret.
    + split; [reflexivity|].
      repeat split; intros ->; reflexivity.
  - intros d products user total status Hfind r. subst r.
    destruct (Order_castUpdate_cases products user total
                (Optional_map OrderStatusEnum_name status) w)
      as [[ps [u [Hcast [Hps Hu]]]] | [message Hcast]].
    + pose proof (updateOrder_run pubsub oid products user total status _ w Hcast)
        as E.
      cbv zeta in E. rewrite E. clear E.
      destruct (update_first_present Models.Order oid
                  (Models.Order_set ps u total
                     (Optional_map OrderStatusEnum_name status))
                  _ d (fun x => eq_refl) Hfind) as [_ Hdb].
      eexists. split; [destruct pubsub; exact Hdb|].
      split; [reflexivity|]. split; [|split; [|split]].
      * intros H. now rewrite (Hps H).
      * intros H. now rewrite (Hu H).
      * now intros ->.
      * now intros ->.
    + rewrite (updateOrder_cast_failure pubsub oid products user total status
                 message w Hcast).
      exists d. split; [exact Hfind|]. now repeat split.
Qed.

Lemma partial_update_keeps_omitted_fields_witness :
  List.find (fun x => Nat.eqb (product_id x) 1) (Products (db (world_of shop)))
    = Some keyboard /\
  exists d' : ProductDoc,
    List.find (fun x => Nat.eqb (product_id x) 1)
      (Products (db (world_after
         (Mutation.updateProduct module_pubsub (Hex 1) (value "Board")
            undefined undefined undefined (world_of shop))))) = Some d' /\
    product_name d' = value "Board" /\
    product_price d' = value 99%Z /\
    product_category d' = value "Electronics" /\
    product_status d' = value "ACTIVE".
Proof.
  split; [reflexivity|].
  destruct (proj1 (partial_update_keeps_omitted_fields module_pubsub
                     (world_of shop) 1)
              keyboard (value "Board") undefined undefined undefined eq_refl)
    as [d' [Hfind [_ [_ [_ [Hprice [Hcategory Hstatus]]]]]]].
  exists d'. split; [exact Hfind|].
  split; [injection Hfind as <-; reflexivity|].
  split; [exact (Hprice eq_refl)|].
  split; [exact (Hcategory eq_refl) | exact (Hstatus eq_refl)].
Defined.

(** * Further properties of the resolver map *)

(** ** Collections under the write operations *)

Section CollectionFacts.

Context {D : Type} (m : Mongoose.Model D).

Abbreviation has_id oid := (fun d => Nat.eqb (Mongoose._id m d) oid).

Lemma find_absent_iff (oid : ObjectId) (l : list D) :
  List.find (has_id oid) l = None <->
  forall d, In d l -> Mongoose._id m d <> oid.
Proof.
  split.
  - intros H d Hin E.
    apply (List.find_none _ _ H) in Hin. simpl in Hin.
    apply Nat.eqb_neq in Hin. contradiction.
  - intros H. induction l as [|x l IH]; simpl; [reflexivity|].
    destruct (Nat.eqb (Mongoose._id m x) oid) eqn:E.
    + apply Nat.eqb_eq in E. elim (H x (or_introl eq_refl) E).
    + apply IH. intros d Hd. apply H. now right.
Qed.

Lemma find_present (oid : ObjectId) (l : list D) (d : D) :
  List.find (has_id oid) l = Some d -> In d l /\ Mongoose._id m d = oid.
Proof.
  intros H. apply List.find_some in H as [Hin E].
  split; [assumption | now apply Nat.eqb_eq].
Qed.

(** A document appended under an identity that no document has yet is
    what that identity finds; every other identity finds what it found. *)
Lemma find_appended (l : list D) (d : D) :
  (forall x, In x l -> Mongoose._id m x <> Mongoose._id m d) ->
  List.find (has_id (Mongoose._id m d)) (l ++ [d]) = Some d.
Proof.
  intros H. induction l as [|x l IH]; simpl.
  - now rewrite Nat.eqb_refl.
  - destruct (Nat.eqb (Mongoose._id m x) (Mongoose._id m d)) eqn:E.
    + apply Nat.eqb_eq in E. elim (H x (or_introl eq_refl) E).
    + apply IH. intros y Hy. apply H. now right.
Qed.

Lemma find_appended_other (oid : ObjectId) (l : list D) (d : D) :
  Mongoose._id m d <> oid ->
  List.find (has_id oid) (l ++ [d]) = List.find (has_id oid) l.
Proof.
  intros H. induction l as [|x l IH]; simpl.
  - apply Nat.eqb_neq in H. now rewrite H.
  - now rewrite IH.
Qed.

Lemma remove_first_ids (oid : ObjectId) (l : list D) :
  forall x, In x (fst (Mongoose.remove_first m oid l)) -> In x l.
Proof.
  induction l as [|d l IH]; simpl; [easy|].
  destruct (Nat.eqb (Mongoose._id m d) oid).
  - intros x Hx. now right.
  - destruct (Mongoose.remove_first m oid l) as [l' r]. simpl in *.
    intros x [<-|Hx]; [now left | right; now apply IH].
Qed.

Lemma remove_first_NoDup (oid : ObjectId) (l : list D) :
  NoDup (List.map (Mongoose._id m) l) ->
  NoDup (List.map (Mongoose._id m) (fst (Mongoose.remove_first m oid l))).
Proof.
  induction l as [|d l IH]; simpl; [easy|].
  intros H. inversion H as [|? ? Hnotin Hrest]; subst.
  destruct (Nat.eqb (Mongoose._id m d) oid); [assumption|].
  pose proof (remove_first_ids oid l) as Hsub.
  destruct (Mongoose.remove_first m oid l) as [l' r]. simpl in *.
  constructor; [|now apply IH].
  intros Hin. apply Hnotin.
  apply List.in_map_iff in Hin as [x [Hx Hin]].
  apply List.in_map_iff. exists x. split; [assumption | now apply Hsub].
Qed.

(** With distinct identities, the removed identity finds nothing
    afterwards. *)
Lemma find_removed (oid : ObjectId) (l : list D) :
  NoDup (List.map (Mongoose._id m) l) ->
  List.find (has_id oid) (fst (Mongoose.remove_first m oid l)) = None.
Proof.
  induction l as [|d l IH]; simpl; [easy|].
  intros H. inversion H as [|? ? Hnotin Hrest]; subst.
  destruct (Nat.eqb (Mongoose._id m d) oid) eqn:E.
  - simpl. apply find_absent_iff. intros x Hx Ex.
    apply Nat.eqb_eq in E. apply Hnotin.
    apply List.in_map_iff. exists x. split; [congruence | assumption].
  - specialize (IH Hrest).
    destruct (Mongoose.remove_first m oid l) as [l' r]. simpl in *.
    now rewrite E.
Qed.

(** Every other identity finds what it found before the removal. *)
Lemma find_removed_other (oid oid' : ObjectId) (l : list D) :
  oid' <> oid ->
  List.find (has_id oid') (fst (Mongoose.remove_first m oid l)) =
  List.find (has_id oid') l.
Proof.
  intros Hne. induction l as [|d l IH]; simpl; [reflexivity|].
  destruct (Nat.eqb (Mongoose._id m d) oid) eqn:E.
  - simpl. apply Nat.eqb_eq in E.
    assert (F : Nat.eqb (Mongoose._id m d) oid' = false).
    { apply Nat.eqb_neq. congruence. }
    now rewrite F.
  - destruct (Mongoose.remove_first m oid l) as [l' r]. simpl in *.
    now rewrite IH.
Qed.

Section Change.

Variable change : D -> D.
Hypothesis change_keeps_id : forall x, Mongoose._id m (change x) = Mongoose._id m x.

(** An update keeps the identities of the collection, in their order. *)
Lemma update_first_ids (oid : ObjectId) (l : list D) :
  List.map (Mongoose._id m) (fst (Mongoose.update_first m oid change l)) =
  List.map (Mongoose._id m) l.
Proof.
  induction l as [|d l IH]; simpl; [reflexivity|].
  destruct (Nat.eqb (Mongoose._id m d) oid).
  - simpl. now rewrite change_keeps_id.
  - destruct (Mongoose.update_first m oid change l) as [l' r]. simpl in *.
    now rewrite IH.
Qed.

(** Every other identity finds what it found before the update. *)
Lemma find_updated_other (oid oid' : ObjectId) (l : list D) :
  oid' <> oid ->
  List.find (has_id oid') (fst (Mongoose.update_first m oid change l)) =
  List.find (has_id oid') l.
Proof.
  intros Hne. induction l as [|d l IH]; simpl; [reflexivity|].
  destruct (Nat.eqb (Mongoose._id m d) oid) eqn:E.
  - simpl. rewrite change_keeps_id. apply Nat.eqb_eq in E.
    assert (F : Nat.eqb (Mongoose._id m d) oid' = false).
    { apply Nat.eqb_neq. congruence. }
    now rewrite F.
  - destruct (Mongoose.update_first m oid change l) as [l' r]. simpl in *.
    now rewrite IH.
Qed.

(** The documents of an updated collection are images or originals. *)
Lemma update_first_In (oid : ObjectId) (l : list D) (x : D) :
  In x (fst (Mongoose.update_first m oid change l)) ->
  exists d, In d l /\ (x = d \/ x = change d).
Proof.
  induction l as [|d l IH]; simpl; [easy|].
  destruct (Nat.eqb (Mongoose._id m d) oid).
  - simpl. intros [<-|Hx].
    + exists d. split; [now left | now right].
    + exists x. split; [now right | now left].
  - destruct (Mongoose.update_first m oid change l) as [l' r]. simpl in *.
    intros [<-|Hx].
    + exists d. split; [now left | now left].
    + destruct (IH Hx) as [y [Hy Hxy]]. exists y. split; [now right | assumption].
Qed.

(** An idempotent change applied twice is the change applied once. *)
Lemma update_first_twice (oid : ObjectId) (l : list D) :
  (forall x, change (change x) = change x) ->
  Mongoose.update_first m oid change
    (fst (Mongoose.update_first m oid change l)) =
  Mongoose.update_first m oid change l.
Proof.
  intros Hidem. induction l as [|d l IH]; simpl; [reflexivity|].
  destruct (Nat.eqb (Mongoose._id m d) oid) eqn:E.
  - simpl. now rewrite change_keeps_id, E, Hidem.
  - destruct (Mongoose.update_first m oid change l) as [l' r] eqn:U.
    simpl in *. now rewrite E, IH.
Qed.

End Change.

End CollectionFacts.

(** ** Every mutation, run on any binding of [pubsub] *)

Lemma addProduct_run (pubsub : option PubSub) (name : string) (price : Z)
  (category : Optional string) (status : Optional StatusEnum) (w : World) :
  let product :=
    mkProduct (next_id (db w)) (value name) (value price) category
      (Optional_map StatusEnum_name status) in
  let w1 :=
    mkWorld
      (mkStore (Products (db w) ++ [product]) (Users (db w)) (Orders (db w))
         (S (next_id (db w))))
      (calls w ++ [("Product", op_create)]) (published w) in
  Mutation.addProduct pubsub name price category status w =
    match pubsub with
    | None => (Thrown "Failed to add product: pubsub is not defined", w1)
    | Some _ =>
        (Returned product,
         mkWorld (db w1) (calls w1)
           (published w ++ [("PRODUCT_ADDED", productAdded product)]))
    end.
Proof. now destruct pubsub. Qed.

Lemma addUser_run (pubsub : option PubSub) (username email : string)
  (role : RoleEnum) (w : World) :
  let user :=
    mkUser (next_id (db w)) (value username) (value email)
      (value (RoleEnum_name role)) in
  let w1 :=
    mkWorld
      (mkStore (Products (db w)) (Users (db w) ++ [user]) (Orders (db w))
         (S (next_id (db w))))
      (calls w ++ [("User", op_create)]) (published w) in
  Mutation.addUser pubsub username email role w =
    match pubsub with
    | None => (Thrown "Failed to add user: pubsub is not defined", w1)
    | Some _ =>
        (Returned user,
         mkWorld (db w1) (calls w1)
           (published w ++ [("USER_ADDED", userAdded user)]))
    end.
Proof. now destruct pubsub. Qed.

(** [addOrder] when every reference in the request is well formed. *)
Lemma addOrder_run (pubsub : option PubSub) (products : list ObjectId)
  (user : ObjectId) (total : Z) (status : OrderStatusEnum) (w : World) :
  let order :=
    mkOrder (next_id (db w)) (value products) (value user) (value total)
      (value (OrderStatusEnum_name status)) in
  let w1 :=
    mkWorld
      (mkStore (Products (db w)) (Users (db w)) (Orders (db w) ++ [order])
         (S (next_id (db w))))
      (calls w ++ [("Order", op_create)]) (published w) in
  Mutation.addOrder pubsub (List.map Hex products) (Hex user) total status w =
    match pubsub with
    | None => (Thrown "Failed to add order: pubsub is not defined", w1)
    | Some _ =>
        (Returned order,
         mkWorld (db w1) (calls w1)
           (published w ++ [("ORDER_ADDED", orderAdded order)]))
    end.
Proof.
  cbv zeta. unfold Mutation.addOrder, try_catch. unfold bind at 1.
  unfold Mongoose.create. unfold bind at 1. unfold try_catch at 1.
  unfold bind at 1. rewrite castObjectIds_Hex.
  now destruct pubsub.
Qed.

(** A list of [ID]s either is the text of ObjectIds and casts to them, or
    fails to cast; the world is untouched either way. *)
Lemma castObjectIds_cases {D : Type} (m : Mongoose.Model D) (path : string)
  (ids : list ID) (w : World) :
  (exists l, ids = List.map Hex l /\
             Mongoose.castObjectIds m path ids w = (Returned l, w)) \/
  (exists message, Mongoose.castObjectIds m path ids w = (Thrown message, w)).
Proof.
  induction ids as [|id ids IH].
  - left. now exists [].
  - destruct id as [oid|text].
    + destruct IH as [[l [-> Hl]] | [message Hl]].
      * left. exists (oid :: l). split; [reflexivity|].
        apply (castObjectIds_Hex m path (oid :: l) w).
      * right. exists message. simpl. unfold bind at 1. simpl.
        unfold bind at 1. now rewrite Hl.
    + right. eexists. reflexivity.
Qed.

(** [addOrder] on any request: either the references are well formed, or
    the call throws and the world is untouched. *)
Lemma addOrder_cases (pubsub : option PubSub) (products : list ID) (user : ID)
  (total : Z) (status : OrderStatusEnum) (w : World) :
  (exists ps u, products = List.map Hex ps /\ user = Hex u) \/
  (exists cause,
      Mutation.addOrder pubsub products user total status w =
        (Thrown ("Failed to add order: " +s cause), w)).
Proof.
  destruct (castObjectIds_cases Models.Order "products" products w)
    as [[ps [-> Hps]] | [message Hps]].
  - destruct user as [u|text].
    + left. now exists ps, u.
    + right. eexists.
      unfold Mutation.addOrder, try_catch. unfold bind at 1.
      unfold Mongoose.create. unfold bind at 1. unfold try_catch at 1.
      unfold bind at 1. rewrite Hps. reflexivity.
  - right. eexists.
    unfold Mutation.addOrder, try_catch. unfold bind at 1.
    unfold Mongoose.create. unfold bind at 1. unfold try_catch at 1.
    unfold bind at 1. rewrite Hps. reflexivity.
Qed.

Lemma deleteProduct_run (pubsub : option PubSub) (oid : ObjectId) (w : World) :
  let w1 :=
    mkWorld
      (mkStore (fst (Mongoose.remove_first Models.Product oid (Products (db w))))
         (Users (db w)) (Orders (db w)) (next_id (db w)))
      (calls w ++ [("Product", op_findByIdAndDelete)]) (published w) in
  Mutation.deleteProduct pubsub (Hex oid) w =
    match pubsub with
    | None => (Thrown "Failed to delete product: pubsub is not defined", w1)
    | Some _ =>
        (Returned true,
         mkWorld (db w1) (calls w1)
           (published w ++ [("PRODUCT_DELETED", productDeleted (Hex oid))]))
    end.
Proof.
  cbv zeta. unfold Mutation.deleteProduct, try_catch. unfold bind at 1.
  rewrite findByIdAndDelete_run. now destruct pubsub.
Qed.

Lemma deleteUser_run (pubsub : option PubSub) (oid : ObjectId) (w : World) :
  let w1 :=
    mkWorld
      (mkStore (Products (db w))
         (fst (Mongoose.remove_first Models.User oid (Users (db w))))
         (Orders (db w)) (next_id (db w)))
      (calls w ++ [("User", op_findByIdAndDelete)]) (published w) in
  Mutation.deleteUser pubsub (Hex oid) w =
    match pubsub with
    | None => (Thrown "Failed to delete user: pubsub is not defined", w1)
    | Some _ =>
        (Returned true,
         mkWorld (db w1) (calls w1)
           (published w ++ [("USER_DELETED", userDeleted (Hex oid))]))
    end.
Proof.
  cbv zeta. unfold Mutation.deleteUser, try_catch. unfold bind at 1.
  rewrite findByIdAndDelete_run. now destruct pubsub.
Qed.

Lemma deleteOrder_run (pubsub : option PubSub) (oid : ObjectId) (w : World) :
  let w1 :=
    mkWorld
      (mkStore (Products (db w)) (Users (db w))
         (fst (Mongoose.remove_first Models.Order oid (Orders (db w))))
         (next_id (db w)))
      (calls w ++ [("Order", op_findByIdAndDelete)]) (published w) in
  Mutation.deleteOrder pubsub (Hex oid) w =
    match pubsub with
    | None => (Thrown "Failed to delete order: pubsub is not defined", w1)
    | Some _ =>
        (Returned true,
         mkWorld (db w1) (calls w1)
           (published w ++ [("ORDER_DELETED", orderDeleted (Hex oid))]))
    end.
Proof.
  cbv zeta. unfold Mutation.deleteOrder, try_catch. unfold bind at 1.
  rewrite findByIdAndDelete_run. now destruct pubsub.
Qed.

(** ** The queries *)

(** X1. No query resolver and no field resolver of Order ever writes: for
    every argument, well formed or not, the store and the published events
    after the call are what they were before. *)
Theorem queries_only_read (w : World) :
  (forall id, reads_only w (Query.product id w)) /\
  (forall onlyActive, reads_only w (Query.products onlyActive w)) /\
  (forall id, reads_only w (Query.user id w)) /\
  reads_only w (Query.users w) /\
  (forall id, reads_only w (Query.order id w)) /\
  (forall userId, reads_only w (Query.orders userId w)) /\
  (forall o, reads_only w (Order.products o w)) /\
  (forall o, reads_only w (Order.user o w)).
Proof.
  repeat split; try (destruct id; reflexivity); try reflexivity.
  - unfold Query.products. now destruct (truthy onlyActive).
  - unfold Query.products. now destruct (truthy onlyActive).
Qed.

Lemma finds_by_identity_of_findById (D : Type) (m : Mongoose.Model D)
  (handler : string -> Async (option D)) :
  finds_by_identity m (fun id => try_catch (Mongoose.findById m id) handler).
Proof.
  intros w oid.
  exists (List.find (fun d => Nat.eqb (Mongoose._id m d) oid)
            (Mongoose.collection m (db w))).
  split; [|split].
  - unfold outcome, try_catch. now rewrite findById_run.
  - intros d. apply find_present.
  - apply find_absent_iff.
Qed.

(** X2. [product(id)], [user(id)] and [order(id)] on a well-formed
    identity return an entity of the store that has this identity, and
    return null, not an error, exactly when the store holds no entity with
    it. *)
Theorem queries_find_by_identity :
  finds_by_identity Models.Product Query.product /\
  finds_by_identity Models.User Query.user /\
  finds_by_identity Models.Order Query.order.
Proof.
  split; [|split].
  - exact (finds_by_identity_of_findById _ Models.Product _).
  - exact (finds_by_identity_of_findById _ Models.User _).
  - exact (finds_by_identity_of_findById _ Models.Order _).
Qed.

(** X3. An identity that is no ObjectId is rejected before anything
    reaches the store, whatever the binding of [pubsub]: the three
    by-identity queries and the six update and delete mutations throw a
    message that starts with their own [Failed to ...] text, and no store
    call is made, nothing is written and nothing is published. *)
Theorem malformed_identity_is_rejected (pubsub : option PubSub) (text : string)
  (w : World) :
  rejected "Failed to fetch product: " w (Query.product (Malformed text) w) /\
  rejected "Failed to fetch user: " w (Query.user (Malformed text) w) /\
  rejected "Failed to fetch order: " w (Query.order (Malformed text) w) /\
  (forall name price category status,
      rejected "Failed to update product: " w
        (Mutation.updateProduct pubsub (Malformed text) name price category
           status w)) /\
  rejected "Failed to delete product: " w
    (Mutation.deleteProduct pubsub (Malformed text) w) /\
  (forall username email role,
      rejected "Failed to update user: " w
        (Mutation.updateUser pubsub (Malformed text) username email role w)) /\
  rejected "Failed to delete user: " w
    (Mutation.deleteUser pubsub (Malformed text) w) /\
  (forall products user total status,
      rejected "Failed to update order: " w
        (Mutation.updateOrder pubsub (Malformed text) products user total
           status w)) /\
  rejected "Failed to delete order: " w
    (Mutation.deleteOrder pubsub (Malformed text) w).
Proof.
  repeat split; intros; eexists; reflexivity.
Qed.

(** ** The store after a mutation *)

Lemma deleteProduct_db (pubsub : option PubSub) (oid : ObjectId) (w : World) :
  db (world_after (Mutation.deleteProduct pubsub (Hex oid) w)) =
  mkStore (fst (Mongoose.remove_first Models.Product oid (Products (db w))))
    (Users (db w)) (Orders (db w)) (next_id (db w)).
Proof.
  pose proof (deleteProduct_run pubsub oid w) as E. cbv zeta in E.
  rewrite E. now destruct pubsub.
Qed.

Lemma deleteUser_db (pubsub : option PubSub) (oid : ObjectId) (w : World) :
  db (world_after (Mutation.deleteUser pubsub (Hex oid) w)) =
  mkStore (Products (db w))
    (fst (Mongoose.remove_first Models.User oid (Users (db w))))
    (Orders (db w)) (next_id (db w)).
Proof.
  pose proof (deleteUser_run pubsub oid w) as E. cbv zeta in E.
  rewrite E. now destruct pubsub.
Qed.

Lemma deleteOrder_db (pubsub : option PubSub) (oid : ObjectId) (w : World) :
  db (world_after (Mutation.deleteOrder pubsub (Hex oid) w)) =
  mkStore (Products (db w)) (Users (db w))
    (fst (Mongoose.remove_first Models.Order oid (Orders (db w))))
    (next_id (db w)).
Proof.
  pose proof (deleteOrder_run pubsub oid w) as E. cbv zeta in E.
  rewrite E. now destruct pubsub.
Qed.

Lemma updateProduct_db (pubsub : option PubSub) (oid : ObjectId)
  (name : Optional string) (price : Optional Z) (category : Optional string)
  (status : Optional StatusEnum) (w : World) :
  db (world_after
        (Mutation.updateProduct pubsub (Hex oid) name price category status w)) =
  mkStore
    (fst (Mongoose.update_first Models.Product oid
            (Models.Product_set name price category
               (Optional_map StatusEnum_name status))
            (Products (db w))))
    (Users (db w)) (Orders (db w)) (next_id (db w)).
Proof.
  pose proof (updateProduct_run pubsub oid name price category status w) as E.
  cbv zeta in E. rewrite E. now destruct pubsub.
Qed.

Lemma updateUser_db (pubsub : option PubSub) (oid : ObjectId)
  (username email : Optional string) (role : Optional RoleEnum) (w : World) :
  db (world_after (Mutation.updateUser pubsub (Hex oid) username email role w)) =
  mkStore (Products (db w))
    (fst (Mongoose.update_first Models.User oid
            (Models.User_set username email (Optional_map RoleEnum_name role))
            (Users (db w))))
    (Orders (db w)) (next_id (db w)).
Proof.
  pose proof (updateUser_run pubsub oid username email role w) as E.
  cbv zeta in E. rewrite E. now destruct pubsub.
Qed.

(** [updateOrder] on any request: the store is untouched (the request
    failed to cast), or the first order with the identity has the cast
    update object set on it. *)
Lemma updateOrder_db (pubsub : option PubSub) (oid : ObjectId)
  (products : Optional (list ID)) (user : Optional ID) (total : Optional Z)
  (status : Optional OrderStatusEnum) (w : World) :
  let r := Mutation.updateOrder pubsub (Hex oid) products user total status w in
  db (world_after r) = db w \/
  exists ps u,
    db (world_after r) =
    mkStore (Products (db w)) (Users (db w))
      (fst (Mongoose.update_first Models.Order oid
              (Models.Order_set ps u total
                 (Optional_map OrderStatusEnum_name status))
              (Orders (db w))))
      (next_id (db w)).
Proof.
  cbv zeta.
  destruct (Order_castUpdate_cases products user total
              (Optional_map OrderStatusEnum_name status) w)
    as [[ps [u [Hcast _]]] | [message Hcast]].
  - right. exists ps, u.
    pose proof (updateOrder_run pubsub oid products user total status _ w Hcast)
      as E.
    cbv zeta in E. rewrite E. now destruct pubsub.
  - left.
    now rewrite (updateOrder_cast_failure pubsub oid products user total status
                   message w Hcast).
Qed.

Lemma addProduct_db (pubsub : option PubSub) (name : string) (price : Z)
  (category : Optional string) (status : Optional StatusEnum) (w : World) :
  db (world_after (Mutation.addProduct pubsub name price category status w)) =
  mkStore
    (Products (db w) ++
     [mkProduct (next_id (db w)) (value name) (value price) category
        (Optional_map StatusEnum_name status)])
    (Users (db w)) (Orders (db w)) (S (next_id (db w))).
Proof. now destruct pubsub. Qed.

Lemma addUser_db (pubsub : option PubSub) (username email : string)
  (role : RoleEnum) (w : World) :
  db (world_after (Mutation.addUser pubsub username email role w)) =
  mkStore (Products (db w))
    (Users (db w) ++
     [mkUser (next_id (db w)) (value username) (value email)
        (value (RoleEnum_name role))])
    (Orders (db w)) (S (next_id (db w))).
Proof. now destruct pubsub. Qed.

Lemma addOrder_db (pubsub : option PubSub) (products : list ObjectId)
  (user : ObjectId) (total : Z) (status : OrderStatusEnum) (w : World) :
  db (world_after
        (Mutation.addOrder pubsub (List.map Hex products) (Hex user) total
           status w)) =
  mkStore (Products (db w)) (Users (db w))
    (Orders (db w) ++
     [mkOrder (next_id (db w)) (value products) (value user) (value total)
        (value (OrderStatusEnum_name status))])
    (S (next_id (db w))).
Proof.
  pose proof (addOrder_run pubsub products user total status w) as E.
  cbv zeta in E. rewrite E. now destruct pubsub.
Qed.

Lemma query_by_identity_run :
  (forall oid w, outcome (Query.product (Hex oid) w)
                 = Returned (lookup Models.Product oid (db w))) /\
  (forall oid w, outcome (Query.user (Hex oid) w)
                 = Returned (lookup Models.User oid (db w))) /\
  (forall oid w, outcome (Query.order (Hex oid) w)
                 = Returned (lookup Models.Order oid (db w))).
Proof. repeat split. Qed.

(** ** Creating, then reading *)

(** X4. An entity that a mutation has created is what a lookup of its
    identity returns afterwards, with the fields of the request; this
    holds for every binding of [pubsub], so also when the mutation threw
    after its write.  The identity the store hands out has to be new to
    the collection.  An order is stored with the references of the request
    as they are, in their order and multiplicity, whether or not they
    point to anything. *)
Theorem created_entity_is_found (pubsub : option PubSub) (w : World) :
  (forall name price category status,
      (forall p, In p (Products (db w)) -> product_id p <> next_id (db w)) ->
      outcome
        (Query.product (Hex (next_id (db w)))
           (world_after (Mutation.addProduct pubsub name price category status w)))
      = Returned
          (Some (mkProduct (next_id (db w)) (value name) (value price) category
                   (Optional_map StatusEnum_name status)))) /\
  (forall username email role,
      (forall u, In u (Users (db w)) -> user_id u <> next_id (db w)) ->
      outcome
        (Query.user (Hex (next_id (db w)))
           (world_after (Mutation.addUser pubsub username email role w)))
      = Returned
          (Some (mkUser (next_id (db w)) (value username) (value email)
                   (value (RoleEnum_name role))))) /\
  (forall products user total status,
      (forall o, In o (Orders (db w)) -> order_id o <> next_id (db w)) ->
      outcome
        (Query.order (Hex (next_id (db w)))
           (world_after
              (Mutation.addOrder pubsub (List.map Hex products) (Hex user) total
                 status w)))
      = Returned
          (Some (mkOrder (next_id (db w)) (value products) (value user)
                   (value total) (value (OrderStatusEnum_name status))))).
Proof.
  destruct query_by_identity_run as [HP [HU HO]].
  split; [|split].
  - intros name price category status Hfresh.
    rewrite HP, addProduct_db. unfold lookup. f_equal.
    exact (find_appended Models.Product (Products (db w))
             (mkProduct (next_id (db w)) _ _ _ _) Hfresh).
  - intros username email role Hfresh.
    rewrite HU, addUser_db. unfold lookup. f_equal.
    exact (find_appended Models.User (Users (db w))
             (mkUser (next_id (db w)) _ _ _) Hfresh).
  - intros products user total status Hfresh.
    rewrite HO, addOrder_db. unfold lookup. f_equal.
    exact (find_appended Models.Order (Orders (db w))
             (mkOrder (next_id (db w)) _ _ _ _) Hfresh).
Qed.

Lemma created_entity_is_found_witness :
  (forall p, In p (Products (db (world_of shop))) ->
             product_id p <> next_id (db (world_of shop))) /\
  outcome
    (Query.product (Hex 24)
       (world_after
          (Mutation.addProduct module_pubsub "Screen" 250%Z null (value ACTIVE)
             (world_of shop))))
  = Returned (Some (mkProduct 24 (value "Screen") (value 250%Z) null
                      (value "ACTIVE"))).
Proof.
  assert (H : forall p, In p (Products (db (world_of shop))) ->
                        product_id p <> next_id (db (world_of shop))).
  { intros p [<-|[<-|[<-|[]]]]; discriminate. }
  split; [exact H|].
  exact (proj1 (created_entity_is_found module_pubsub (world_of shop))
           "Screen" 250%Z null (value ACTIVE) H).
Defined.

(** ** Deleting, then reading *)

(** X5. In a collection whose identities are distinct, an identity that
    was deleted finds nothing afterwards: the lookup returns null.  This
    holds for every binding of [pubsub], so also when the delete threw
    after its write. *)
Theorem deleted_entity_is_gone (pubsub : option PubSub) (w : World)
  (oid : ObjectId) :
  (NoDup (List.map product_id (Products (db w))) ->
   outcome (Query.product (Hex oid)
              (world_after (Mutation.deleteProduct pubsub (Hex oid) w)))
   = Returned None) /\
  (NoDup (List.map user_id (Users (db w))) ->
   outcome (Query.user (Hex oid)
              (world_after (Mutation.deleteUser pubsub (Hex oid) w)))
   = Returned None) /\
  (NoDup (List.map order_id (Orders (db w))) ->
   outcome (Query.order (Hex oid)
              (world_after (Mutation.deleteOrder pubsub (Hex oid) w)))
   = Returned None).
Proof.
  destruct query_by_identity_run as [HP [HU HO]].
  split; [|split]; intros Hdistinct.
  - rewrite HP, deleteProduct_db. f_equal.
    exact (find_removed Models.Product oid _ Hdistinct).
  - rewrite HU, deleteUser_db. f_equal.
    exact (find_removed Models.User oid _ Hdistinct).
  - rewrite HO, deleteOrder_db. f_equal.
    exact (find_removed Models.Order oid _ Hdistinct).
Qed.

Lemma deleted_entity_is_gone_witness :
  NoDup (List.map user_id (Users (db (world_of shop)))) /\
  outcome (Query.user (Hex 11)
             (world_after (Mutation.deleteUser module_pubsub (Hex 11)
                             (world_of shop))))
  = Returned None.
Proof.
  assert (H : NoDup (List.map user_id (Users (db (world_of shop))))).
  { simpl. repeat constructor; simpl; intuition discriminate. }
  split; [exact H|].
  exact (proj1 (proj2 (deleted_entity_is_gone module_pubsub (world_of shop) 11)) H).
Defined.

(** X6. A delete touches one collection and one identity.  Deleting a
    product or a user changes no order (nothing cascades: an order keeps a
    reference to what was deleted) and no document of the other
    collection, and every other identity of the collection itself finds
    what it found before.  The same holds for deleting an order.  This is
    so for every identity argument, well formed or not, and every binding
    of [pubsub]. *)
Theorem delete_touches_one_entity (pubsub : option PubSub) (w : World) (id : ID) :
  (let s := db (world_after (Mutation.deleteProduct pubsub id w)) in
   Users s = Users (db w) /\ Orders s = Orders (db w) /\
   forall oid, Hex oid <> id ->
               lookup Models.Product oid s = lookup Models.Product oid (db w)) /\
  (let s := db (world_after (Mutation.deleteUser pubsub id w)) in
   Products s = Products (db w) /\ Orders s = Orders (db w) /\
   forall oid, Hex oid <> id ->
               lookup Models.User oid s = lookup Models.User oid (db w)) /\
  (let s := db (world_after (Mutation.deleteOrder pubsub id w)) in
   Products s = Products (db w) /\ Users s = Users (db w) /\
   forall oid, Hex oid <> id ->
               lookup Models.Order oid s = lookup Models.Order oid (db w)).
Proof.
  destruct id as [oid0|text]; cbv zeta.
  - rewrite deleteProduct_db, deleteUser_db, deleteOrder_db.
    repeat split; intros oid Hne;
      (assert (Hne' : oid <> oid0) by congruence).
    + exact (find_removed_other Models.Product oid0 oid _ Hne').
    + exact (find_removed_other Models.User oid0 oid _ Hne').
    + exact (find_removed_other Models.Order oid0 oid _ Hne').
  - repeat split.
Qed.

(** ** Updating *)

(** X7. An update never changes an identity and never touches another
    entity: after [updateProduct], [updateUser] or [updateOrder], on any
    request and for any binding of [pubsub], the collection holds the same
    identities in the same order, the other two collections are what they
    were, and every other identity finds what it found before. *)
Theorem update_keeps_identities (pubsub : option PubSub) (w : World)
  (oid : ObjectId) :
  (forall name price category status,
      let s := db (world_after
                     (Mutation.updateProduct pubsub (Hex oid) name price category
                        status w)) in
      List.map product_id (Products s) = List.map product_id (Products (db w)) /\
      Users s = Users (db w) /\ Orders s = Orders (db w) /\
      forall oid', oid' <> oid ->
        lookup Models.Product oid' s = lookup Models.Product oid' (db w)) /\
  (forall username email role,
      let s := db (world_after
                     (Mutation.updateUser pubsub (Hex oid) username email role w)) in
      List.map user_id (Users s) = List.map user_id (Users (db w)) /\
      Products s = Products (db w) /\ Orders s = Orders (db w) /\
      forall oid', oid' <> oid ->
        lookup Models.User oid' s = lookup Models.User oid' (db w)) /\
  (forall products user total status,
      let s := db (world_after
                     (Mutation.updateOrder pubsub (Hex oid) products user total
                        status w)) in
      List.map order_id (Orders s) = List.map order_id (Orders (db w)) /\
      Products s = Products (db w) /\ Users s = Users (db w) /\
      forall oid', oid' <> oid ->
        lookup Models.Order oid' s = lookup Models.Order oid' (db w)).
Proof.
  split; [|split].
  - intros name price category status. cbv zeta. rewrite updateProduct_db.
    split; [|repeat split].
    + simpl. apply (update_first_ids Models.Product). now intros.
    + intros oid' Hne.
      unfold lookup. simpl.
      apply (find_updated_other Models.Product); [now intros | exact Hne].
  - intros username email role. cbv zeta. rewrite updateUser_db.
    split; [|repeat split].
    + simpl. apply (update_first_ids Models.User). now intros.
    + intros oid' Hne.
      unfold lookup. simpl.
      apply (find_updated_other Models.User); [now intros | exact Hne].
  - intros products user total status. cbv zeta.
    destruct (updateOrder_db pubsub oid products user total status w)
      as [E | [ps [u E]]]; cbv zeta in E; rewrite E.
    + repeat split.
    + split; [|repeat split].
      * simpl. apply (update_first_ids Models.Order). now intros.
      * intros oid' Hne.
        unfold lookup. simpl.
      apply (find_updated_other Models.Order); [now intros | exact Hne].
Qed.

Lemma updateOrder_Hex_db (pubsub : option PubSub) (oid : ObjectId)
  (products : Optional (list ObjectId)) (user : Optional ObjectId)
  (total : Optional Z) (status : Optional OrderStatusEnum) (w : World) :
  db (world_after
        (Mutation.updateOrder pubsub (Hex oid)
           (Optional_map (List.map Hex) products) (Optional_map Hex user)
           total status w)) =
  mkStore (Products (db w)) (Users (db w))
    (fst (Mongoose.update_first Models.Order oid
            (Models.Order_set products user total
               (Optional_map OrderStatusEnum_name status))
            (Orders (db w))))
    (next_id (db w)).
Proof.
  pose proof (updateOrder_run pubsub oid _ _ total status _ w
                (Order_castUpdate_Hex products user total _ w)) as E.
  cbv zeta in E. rewrite E. now destruct pubsub.
Qed.

Lemma set_key_present {T : Type} (new old : Optional T) :
  new <> undefined -> Mongoose.set_key new old = new.
Proof. destruct new; [intros H; now elim H | reflexivity | reflexivity]. Qed.

Lemma set_key_twice {T : Type} (new old : Optional T) :
  Mongoose.set_key new (Mongoose.set_key new old) = Mongoose.set_key new old.
Proof. now destruct new. Qed.

(** X8. For an entity that is in the store, every key that the request
    carries is what the stored entity holds after the update: a value is
    stored as given (an enum as its name) and an explicit null is stored
    as null.  This holds for every binding of [pubsub]; for an order the
    references of the request are well formed. *)
Theorem update_sets_requested_fields (pubsub : option PubSub) (w : World)
  (oid : ObjectId) :
  (forall d name price category status,
      lookup Models.Product oid (db w) = Some d ->
      exists d',
        lookup Models.Product oid
          (db (world_after
                 (Mutation.updateProduct pubsub (Hex oid) name price category
                    status w))) = Some d' /\
        (name <> undefined -> product_name d' = name) /\
        (price <> undefined -> product_price d' = price) /\
        (category <> undefined -> product_category d' = category) /\
        (status <> undefined ->
         product_status d' = Optional_map StatusEnum_name status)) /\
  (forall d username email role,
      lookup Models.User oid (db w) = Some d ->
      exists d',
        lookup Models.User oid
          (db (world_after
                 (Mutation.updateUser pubsub (Hex oid) username email role w)))
          = Some d' /\
        (username <> undefined -> user_username d' = username) /\
        (email <> undefined -> user_email d' = email) /\
        (role <> undefined -> user_role d' = Optional_map RoleEnum_name role)) /\
  (forall d products user total status,
      lookup Models.Order oid (db w) = Some d ->
      exists d',
        lookup Models.Order oid
          (db (world_after
                 (Mutation.updateOrder pubsub (Hex oid)
                    (Optional_map (List.map Hex) products)
                    (Optional_map Hex user) total status w))) = Some d' /\
        (products <> undefined -> order_products d' = products) /\
        (user <> undefined -> order_user d' = user) /\
        (total <> undefined -> order_total d' = total) /\
        (status <> undefined ->
         order_status d' = Optional_map OrderStatusEnum_name status)).
Proof.
  split; [|split].
  - intros d name price category status Hfind.
    rewrite updateProduct_db.
    destruct (update_first_present Models.Product oid
                (Models.Product_set name price category
                   (Optional_map StatusEnum_name status))
                _ d (fun x => eq_refl) Hfind) as [_ Hdb].
    eexists. split; [exact Hdb|]. simpl.
    repeat split; intros H; apply set_key_present; try assumption.
    destruct status; [now elim H | discriminate | discriminate].
  - intros d username email role Hfind.
    rewrite updateUser_db.
    destruct (update_first_present Models.User oid
                (Models.User_set username email (Optional_map RoleEnum_name role))
                _ d (fun x => eq_refl) Hfind) as [_ Hdb].
    eexists. split; [exact Hdb|]. simpl.
    repeat split; intros H; apply set_key_present; try assumption.
    destruct role; [now elim H | discriminate | discriminate].
  - intros d products user total status Hfind.
    rewrite updateOrder_Hex_db.
    destruct (update_first_present Models.Order oid
                (Models.Order_set products user total
                   (Optional_map OrderStatusEnum_name status))
                _ d (fun x => eq_refl) Hfind) as [_ Hdb].
    eexists. split; [exact Hdb|]. simpl.
    repeat split; intros H; apply set_key_present; try assumption.
    destruct status; [now elim H | discriminate | discriminate].
Qed.

Lemma update_sets_requested_fields_witness :
  lookup Models.Product 2 (db (world_of shop)) = Some mouse /\
  exists d' : ProductDoc,
    lookup Models.Product 2
      (db (world_after
             (Mutation.updateProduct module_pubsub (Hex 2) undefined
                (value 12%Z) (value "Electronics") null (world_of shop))))
      = Some d' /\
    product_price d' = value 12%Z /\
    product_category d' = value "Electronics" /\
    product_status d' = null.
Proof.
  split; [reflexivity|].
  destruct (proj1 (update_sets_requested_fields module_pubsub (world_of shop) 2)
              mouse undefined (value 12%Z) (value "Electronics") null eq_refl)
    as [d' [Hfind [_ [Hprice [Hcategory Hstatus]]]]].
  exists d'. split; [exact Hfind|].
  split; [apply Hprice; discriminate|].
  split; [apply Hcategory; discriminate | apply Hstatus; discriminate].
Defined.

(** X9. Sending the same update twice leaves the store as sending it
    once: the second call changes nothing.  This holds for every request
    and every binding of [pubsub]; for an order the references of the
    request are well formed. *)
Theorem update_twice_is_update_once (pubsub : option PubSub) (w : World)
  (oid : ObjectId) :
  (forall name price category status,
      let update := Mutation.updateProduct pubsub (Hex oid) name price category
                      status in
      db (world_after (update (world_after (update w)))) =
      db (world_after (update w))) /\
  (forall username email role,
      let update := Mutation.updateUser pubsub (Hex oid) username email role in
      db (world_after (update (world_after (update w)))) =
      db (world_after (update w))) /\
  (forall products user total status,
      let update := Mutation.updateOrder pubsub (Hex oid)
                      (Optional_map (List.map Hex) products)
                      (Optional_map Hex user) total status in
      db (world_after (update (world_after (update w)))) =
      db (world_after (update w))).
Proof.
  split; [|split]; intros; subst update.
  - rewrite !updateProduct_db. simpl.
    rewrite (update_first_twice Models.Product); [reflexivity | now intros |].
    intros x. unfold Models.Product_set. simpl. now rewrite !set_key_twice.
  - rewrite !updateUser_db. simpl.
    rewrite (update_first_twice Models.User); [reflexivity | now intros |].
    intros x. unfold Models.User_set. simpl. now rewrite !set_key_twice.
  - rewrite !updateOrder_Hex_db. simpl.
    rewrite (update_first_twice Models.Order); [reflexivity | now intros |].
    intros x. unfold Models.Order_set. simpl. now rewrite !set_key_twice.
Qed.

(** ** Mutations and events, on every request *)

Ltac by_run E :=
  let H := fresh "Hrun" in
  pose proof E as H; cbv zeta in H; rewrite H; clear H;
  unfold one_event_iff_returned, throws_without_event, outcome, world_after;
  simpl.

(** X10. With the event bus declared, each of the nine mutations, on
    every request, publishes exactly one event on its own topic when it
    returns, and when it throws it has published nothing and has written
    nothing. *)
Theorem mutation_publishes_once_iff_it_returns (bus : PubSub) (w : World) :
  (forall name price category status,
      one_event_iff_returned "PRODUCT_ADDED" w
        (Mutation.addProduct (Some bus) name price category status w)) /\
  (forall id name price category status,
      one_event_iff_returned "PRODUCT_UPDATED" w
        (Mutation.updateProduct (Some bus) id name price category status w)) /\
  (forall id,
      one_event_iff_returned "PRODUCT_DELETED" w
        (Mutation.deleteProduct (Some bus) id w)) /\
  (forall username email role,
      one_event_iff_returned "USER_ADDED" w
        (Mutation.addUser (Some bus) username email role w)) /\
  (forall id username email role,
      one_event_iff_returned "USER_UPDATED" w
        (Mutation.updateUser (Some bus) id username email role w)) /\
  (forall id,
      one_event_iff_returned "USER_DELETED" w
        (Mutation.deleteUser (Some bus) id w)) /\
  (forall products user total status,
      one_event_iff_returned "ORDER_ADDED" w
        (Mutation.addOrder (Some bus) products user total status w)) /\
  (forall id products user total status,
      one_event_iff_returned "ORDER_UPDATED" w
        (Mutation.updateOrder (Some bus) id products user total status w)) /\
  (forall id,
      one_event_iff_returned "ORDER_DELETED" w
        (Mutation.deleteOrder (Some bus) id w)).
Proof.
  repeat apply conj.
  - intros. by_run (addProduct_run (Some bus) name price category status w).
    eexists. reflexivity.
  - intros [oid|text] name price category status; [|now split].
    by_run (updateProduct_run (Some bus) oid name price category status w).
    eexists. reflexivity.
  - intros [oid|text]; [|now split].
    by_run (deleteProduct_run (Some bus) oid w). eexists. reflexivity.
  - intros. by_run (addUser_run (Some bus) username email role w).
    eexists. reflexivity.
  - intros [oid|text] username email role; [|now split].
    by_run (updateUser_run (Some bus) oid username email role w).
    eexists. reflexivity.
  - intros [oid|text]; [|now split].
    by_run (deleteUser_run (Some bus) oid w). eexists. reflexivity.
  - intros products user total status.
    destruct (addOrder_cases (Some bus) products user total status w)
      as [[ps [u [-> ->]]] | [cause E]].
    + by_run (addOrder_run (Some bus) ps u total status w).
      eexists. reflexivity.
    + unfold one_event_iff_returned. rewrite E. now split.
  - intros [oid|text] products user total status; [|now split].
    destruct (Order_castUpdate_cases products user total
                (Optional_map OrderStatusEnum_name status) w)
      as [[ps [u [Hcast _]]] | [message Hcast]].
    + by_run (updateOrder_run (Some bus) oid products user total status _ w Hcast).
      eexists. reflexivity.
    + unfold one_event_iff_returned.
      rewrite (updateOrder_cast_failure (Some bus) oid products user total status
                 message w Hcast).
      now split.
  - intros [oid|text]; [|now split].
    by_run (deleteOrder_run (Some bus) oid w). eexists. reflexivity.
Qed.

Lemma mutation_publishes_once_iff_it_returns_witness :
  one_event_iff_returned "USER_DELETED" (world_of shop)
    (Mutation.deleteUser (Some new_PubSub) (Hex 11) (world_of shop)) /\
  outcome (Mutation.deleteUser (Some new_PubSub) (Hex 11) (world_of shop))
    = Returned true /\
  one_event_iff_returned "ORDER_ADDED" (world_of shop)
    (Mutation.addOrder (Some new_PubSub) [Hex 1; Malformed "keyboard"] (Hex 11)
       99%Z PENDING (world_of shop)) /\
  published
    (world_after
       (Mutation.addOrder (Some new_PubSub) [Hex 1; Malformed "keyboard"]
          (Hex 11) 99%Z PENDING (world_of shop)))
  = [].
Proof.
  destruct (mutation_publishes_once_iff_it_returns new_PubSub (world_of shop))
    as [_ [_ [_ [_ [_ [Hdelete [Hadd _]]]]]]].
  split; [apply Hdelete|]. split; [reflexivity|].
  split; [apply Hadd | reflexivity].
Defined.

(** X11. As the file is written, with [pubsub] not declared, none of the
    nine mutations ever returns and none ever publishes: on every request
    the call throws a message that starts with its own [Failed to ...]
    text, and the published events are what they were. *)
Theorem as_written_no_mutation_returns (w : World) :
  (forall name price category status,
      throws_without_event "Failed to add product: " w
        (Mutation.addProduct module_pubsub name price category status w)) /\
  (forall id name price category status,
      throws_without_event "Failed to update product: " w
        (Mutation.updateProduct module_pubsub id name price category status w)) /\
  (forall id,
      throws_without_event "Failed to delete product: " w
        (Mutation.deleteProduct module_pubsub id w)) /\
  (forall username email role,
      throws_without_event "Failed to add user: " w
        (Mutation.addUser module_pubsub username email role w)) /\
  (forall id username email role,
      throws_without_event "Failed to update user: " w
        (Mutation.updateUser module_pubsub id username email role w)) /\
  (forall id,
      throws_without_event "Failed to delete user: " w
        (Mutation.deleteUser module_pubsub id w)) /\
  (forall products user total status,
      throws_without_event "Failed to add order: " w
        (Mutation.addOrder module_pubsub products user total status w)) /\
  (forall id products user total status,
      throws_without_event "Failed to update order: " w
        (Mutation.updateOrder module_pubsub id products user total status w)) /\
  (forall id,
      throws_without_event "Failed to delete order: " w
        (Mutation.deleteOrder module_pubsub id w)).
Proof.
  repeat apply conj.
  - intros. by_run (addProduct_run module_pubsub name price category status w).
    split; [eexists|]; reflexivity.
  - intros [oid|text] name price category status;
      [|split; [eexists|]; reflexivity].
    by_run (updateProduct_run module_pubsub oid name price category status w).
    split; [eexists|]; reflexivity.
  - intros [oid|text]; [|split; [eexists|]; reflexivity].
    by_run (deleteProduct_run module_pubsub oid w).
    split; [eexists|]; reflexivity.
  - intros. by_run (addUser_run module_pubsub username email role w).
    split; [eexists|]; reflexivity.
  - intros [oid|text] username email role; [|split; [eexists|]; reflexivity].
    by_run (updateUser_run module_pubsub oid username email role w).
    split; [eexists|]; reflexivity.
  - intros [oid|text]; [|split; [eexists|]; reflexivity].
    by_run (deleteUser_run module_pubsub oid w).
    split; [eexists|]; reflexivity.
  - intros products user total status.
    destruct (addOrder_cases module_pubsub products user total status w)
      as [[ps [u [-> ->]]] | [cause E]].
    + by_run (addOrder_run module_pubsub ps u total status w).
      split; [eexists|]; reflexivity.
    + unfold throws_without_event. rewrite E.
      split; [eexists|]; reflexivity.
  - intros [oid|text] products user total status;
      [|split; [eexists|]; reflexivity].
    destruct (Order_castUpdate_cases products user total
                (Optional_map OrderStatusEnum_name status) w)
      as [[ps [u [Hcast _]]] | [message Hcast]].
    + by_run (updateOrder_run module_pubsub oid products user total status _ w
                Hcast).
      split; [eexists|]; reflexivity.
    + unfold throws_without_event.
      rewrite (updateOrder_cast_failure module_pubsub oid products user total
                 status message w Hcast).
      split; [eexists|]; reflexivity.
  - intros [oid|text]; [|split; [eexists|]; reflexivity].
    by_run (deleteOrder_run module_pubsub oid w).
    split; [eexists|]; reflexivity.
Qed.

(** ** Identities stay distinct *)

Section KeyedFacts.

Context {D : Type} (m : Mongoose.Model D).

Lemma keyed_bump (s s' : Store) :
  Mongoose.collection m s' = Mongoose.collection m s ->
  next_id s <= next_id s' ->
  keyed m s -> keyed m s'.
Proof.
  intros Hc Hn [Hnodup Hbound]. unfold keyed. rewrite Hc.
  split; [assumption|]. intros d Hd. specialize (Hbound d Hd). lia.
Qed.

Lemma keyed_after_remove (oid : ObjectId) (s s' : Store) :
  Mongoose.collection m s' =
    fst (Mongoose.remove_first m oid (Mongoose.collection m s)) ->
  next_id s' = next_id s ->
  keyed m s -> keyed m s'.
Proof.
  intros Hc Hn [Hnodup Hbound]. unfold keyed. rewrite Hc, Hn.
  split; [now apply remove_first_NoDup|].
  intros d Hd. apply Hbound. now apply (remove_first_ids m oid).
Qed.

Lemma keyed_after_update (oid : ObjectId) (change : D -> D) (s s' : Store) :
  (forall x, Mongoose._id m (change x) = Mongoose._id m x) ->
  Mongoose.collection m s' =
    fst (Mongoose.update_first m oid change (Mongoose.collection m s)) ->
  next_id s' = next_id s ->
  keyed m s -> keyed m s'.
Proof.
  intros Hid Hc Hn [Hnodup Hbound]. unfold keyed. rewrite Hc, Hn.
  split; [now rewrite update_first_ids|].
  intros x Hx. destruct (update_first_In m change oid _ x Hx) as [d [Hd [->| ->]]].
  - now apply Hbound.
  - rewrite Hid. now apply Hbound.
Qed.

Lemma keyed_after_create (d : D) (s s' : Store) :
  Mongoose._id m d = next_id s ->
  Mongoose.collection m s' = Mongoose.collection m s ++ [d] ->
  next_id s' = S (next_id s) ->
  keyed m s -> keyed m s'.
Proof.
  intros Hd Hc Hn [Hnodup Hbound]. unfold keyed. rewrite Hc, Hn.
  split.
  - rewrite List.map_app. apply List.NoDup_app; [assumption| |].
    + simpl. constructor; [easy | constructor].
    + intros a Ha [<-|[]].
      apply List.in_map_iff in Ha as [x [Hx Hin]].
      specialize (Hbound x Hin). lia.
  - intros x Hx. apply List.in_app_iff in Hx as [Hx|[<-|[]]].
    + specialize (Hbound x Hx). lia.
    + lia.
Qed.

End KeyedFacts.

Ltac keep_keyed Hwk s :=
  destruct Hwk as [HkP [HkU HkO]]; unfold well_keyed;
  repeat apply conj;
  first
    [ solve [apply (keyed_bump _ s); [reflexivity | simpl; lia | assumption]]
    | solve [eapply (keyed_after_remove _ _ s);
             [reflexivity | reflexivity | assumption]]
    | solve [eapply (keyed_after_update _ _ _ s); cycle 1;
             [reflexivity | reflexivity | assumption | intros; reflexivity]]
    | solve [eapply (keyed_after_create _ _ s); cycle 1;
             [reflexivity | reflexivity | assumption | reflexivity]] ].

(** X12. Distinct identities are an invariant of the resolvers.  If in
    each collection the identities are pairwise distinct and below the
    next identity of the store, they still are after any of the nine
    mutations, on any request and for any binding of [pubsub]. *)
Theorem mutations_keep_identities_distinct (pubsub : option PubSub) (w : World) :
  well_keyed (db w) ->
  (forall name price category status,
      well_keyed (db (world_after
        (Mutation.addProduct pubsub name price category status w)))) /\
  (forall id name price category status,
      well_keyed (db (world_after
        (Mutation.updateProduct pubsub id name price category status w)))) /\
  (forall id,
      well_keyed (db (world_after (Mutation.deleteProduct pubsub id w)))) /\
  (forall username email role,
      well_keyed (db (world_after
        (Mutation.addUser pubsub username email role w)))) /\
  (forall id username email role,
      well_keyed (db (world_after
        (Mutation.updateUser pubsub id username email role w)))) /\
  (forall id,
      well_keyed (db (world_after (Mutation.deleteUser pubsub id w)))) /\
  (forall products user total status,
      well_keyed (db (world_after
        (Mutation.addOrder pubsub products user total status w)))) /\
  (forall id products user total status,
      well_keyed (db (world_after
        (Mutation.updateOrder pubsub id products user total status w)))) /\
  (forall id,
      well_keyed (db (world_after (Mutation.deleteOrder pubsub id w)))).
Proof.
  intros Hwk. repeat apply conj.
  - intros. rewrite addProduct_db. keep_keyed Hwk (db w).
  - intros [oid|text] name price category status; [|exact Hwk].
    rewrite updateProduct_db. keep_keyed Hwk (db w).
  - intros [oid|text]; [|exact Hwk]. rewrite deleteProduct_db. keep_keyed Hwk (db w).
  - intros. rewrite addUser_db. keep_keyed Hwk (db w).
  - intros [oid|text] username email role; [|exact Hwk].
    rewrite updateUser_db. keep_keyed Hwk (db w).
  - intros [oid|text]; [|exact Hwk]. rewrite deleteUser_db. keep_keyed Hwk (db w).
  - intros products user total status.
    destruct (addOrder_cases pubsub products user total status w)
      as [[ps [u [-> ->]]] | [cause E]].
    + rewrite addOrder_db. keep_keyed Hwk (db w).
    + rewrite E. exact Hwk.
  - intros [oid|text] products user total status; [|exact Hwk].
    destruct (updateOrder_db pubsub oid products user total status w)
      as [E | [ps [u E]]]; cbv zeta in E; rewrite E.
    + exact Hwk.
    + keep_keyed Hwk (db w).
  - intros [oid|text]; [|exact Hwk]. rewrite deleteOrder_db. keep_keyed Hwk (db w).
Qed.

Lemma shop_well_keyed : well_keyed shop.
Proof.
  repeat split; simpl;
    try (repeat constructor; simpl; intuition discriminate);
    intros d Hd; repeat (destruct Hd as [<-|Hd]; [simpl; lia|]); elim Hd.
Qed.

Lemma mutations_keep_identities_distinct_witness :
  well_keyed (db (world_of shop)) /\
  well_keyed (db (world_after
    (Mutation.addOrder module_pubsub [Hex 1; Hex 1] (Hex 40) 198%Z PENDING
       (world_of shop)))).
Proof.
  split; [exact shop_well_keyed|].
  destruct (mutations_keep_identities_distinct module_pubsub (world_of shop)
              shop_well_keyed)
    as [_ [_ [_ [_ [_ [_ [Hadd _]]]]]]].
  exact (Hadd [Hex 1; Hex 1] (Hex 40) 198%Z PENDING).
Defined.

(** ** Mutations seen through the queries *)

Lemma products_run (onlyActive : Optional bool) (w : World) :
  outcome (Query.products onlyActive w) =
  Returned
    (if truthy onlyActive
     then List.filter (Mongoose.field_equals product_status "ACTIVE")
            (Products (db w))
     else Products (db w)).
Proof.
  unfold Query.products, outcome, try_catch.
  destruct (truthy onlyActive); rewrite find_run; simpl; [reflexivity|].
  now rewrite filter_all.
Qed.

(** X13. After [addProduct], for every binding of [pubsub], the unfiltered
    product listing is the former listing followed by the new product, and
    the listing of active products is the former one followed by the new
    product when the request gave status ACTIVE, and the former one
    unchanged when it gave INACTIVE, null or no status. *)
Theorem added_product_is_listed (pubsub : option PubSub) (w : World)
  (name : string) (price : Z) (category : Optional string)
  (status : Optional StatusEnum) :
  let product :=
    mkProduct (next_id (db w)) (value name) (value price) category
      (Optional_map StatusEnum_name status) in
  let w' :=
    world_after (Mutation.addProduct pubsub name price category status w) in
  forall (all active : list ProductDoc),
    outcome (Query.products undefined w) = Returned all ->
    outcome (Query.products (value true) w) = Returned active ->
    outcome (Query.products undefined w') = Returned (all ++ [product]) /\
    outcome (Query.products (value true) w') =
      Returned (active ++ match status with
                          | value ACTIVE => [product]
                          | _ => []
                          end).
Proof.
  intros product w' all active Hall Hactive.
  rewrite products_run in Hall, Hactive. simpl in Hall, Hactive.
  injection Hall as <-. injection Hactive as <-.
  subst w'. rewrite !products_run, addProduct_db. simpl.
  split; [reflexivity|].
  rewrite List.filter_app. simpl.
  now destruct status as [| |[|]].
Qed.

Lemma added_product_is_listed_witness :
  outcome (Query.products undefined (world_of shop))
    = Returned [keyboard; mouse; cable] /\
  outcome (Query.products (value true) (world_of shop)) = Returned [keyboard] /\
  outcome (Query.products (value true)
             (world_after
                (Mutation.addProduct module_pubsub "Screen" 250%Z undefined
                   (value ACTIVE) (world_of shop))))
  = Returned [keyboard;
              mkProduct 24 (value "Screen") (value 250%Z) undefined
                (value "ACTIVE")].
Proof.
  split; [reflexivity|]. split; [reflexivity|].
  exact (proj2 (added_product_is_listed module_pubsub (world_of shop) "Screen"
                  250%Z undefined (value ACTIVE) [keyboard; mouse; cable]
                  [keyboard] eq_refl eq_refl)).
Defined.

Lemma remove_first_In_iff {D : Type} (m : Mongoose.Model D) (oid : ObjectId)
  (l : list D) (x : D) :
  NoDup (List.map (Mongoose._id m) l) ->
  (In x (fst (Mongoose.remove_first m oid l)) <->
   In x l /\ Mongoose._id m x <> oid).
Proof.
  induction l as [|d l IH]; simpl; [tauto|].
  intros H. inversion H as [|? ? Hnotin Hrest]; subst.
  destruct (Nat.eqb (Mongoose._id m d) oid) eqn:E.
  - simpl. apply Nat.eqb_eq in E. split.
    + intros Hx. split; [now right|]. intros Ex. apply Hnotin.
      apply List.in_map_iff. exists x. split; [congruence | assumption].
    + intros [[<-|Hx] Hne]; [contradiction | assumption].
  - apply Nat.eqb_neq in E. specialize (IH Hrest).
    destruct (Mongoose.remove_first m oid l) as [l' r]. simpl in *.
    split.
    + intros [<-|Hx]; [split; [now left | assumption]|].
      apply IH in Hx as [Hx Hne]. split; [now right | assumption].
    + intros [[<-|Hx] Hne]; [now left|]. right. apply IH. now split.
Qed.

(** X14. After a delete, the orders that referenced the deleted entity
    still resolve, without it.  With distinct identities and for every
    binding of [pubsub]: after [deleteUser] the [user] field of an order
    that references the deleted user resolves to null, and after
    [deleteProduct] the [products] field of any order resolves to the
    products it resolved to before other than the deleted one. *)
Theorem deleted_reference_resolves_absent (pubsub : option PubSub) (w : World)
  (oid : ObjectId) (o : OrderDoc) :
  (NoDup (List.map user_id (Users (db w))) ->
   order_user o = value oid ->
   outcome (Order.user o (world_after (Mutation.deleteUser pubsub (Hex oid) w)))
   = Returned None) /\
  (NoDup (List.map product_id (Products (db w))) ->
   forall before : list ProductDoc,
     outcome (Order.products o w) = Returned before ->
     exists after : list ProductDoc,
       outcome (Order.products o
                  (world_after (Mutation.deleteProduct pubsub (Hex oid) w)))
       = Returned after /\
       forall p, In p after <-> In p before /\ product_id p <> oid).
Proof.
  split.
  - intros Hdistinct Huser.
    unfold Order.user, outcome, try_catch, bind. rewrite findOne_run. simpl.
    rewrite deleteUser_db, Huser. simpl. f_equal.
    exact (find_removed Models.User oid _ Hdistinct).
  - intros Hdistinct before Hbefore.
    unfold Order.products, outcome in *. rewrite find_run in *.
    simpl in Hbefore. injection Hbefore as <-.
    eexists. split; [reflexivity|].
    intros p. rewrite deleteProduct_db. simpl.
    rewrite !List.filter_In.
    rewrite (remove_first_In_iff Models.Product oid _ p Hdistinct). simpl.
    tauto.
Qed.

Lemma deleted_reference_resolves_absent_witness :
  NoDup (List.map user_id (Users (db (world_of shop)))) /\
  order_user order_a = value 11 /\
  outcome (Order.user order_a
             (world_after (Mutation.deleteUser module_pubsub (Hex 11)
                             (world_of shop))))
  = Returned None.
Proof.
  assert (H : NoDup (List.map user_id (Users (db (world_of shop))))).
  { simpl. repeat constructor; simpl; intuition discriminate. }
  split; [exact H|]. split; [reflexivity|].
  exact (proj1 (deleted_reference_resolves_absent module_pubsub (world_of shop)
                  11 order_a) H eq_refl).
Defined.

Lemma filter_none {A : Type} (f : A -> bool) (l : list A) :
  (forall x, In x l -> f x = false) -> List.filter f l = [].
Proof.
  induction l as [|a l IH]; simpl; [reflexivity|].
  intros H. rewrite (H a (or_introl eq_refl)). apply IH.
  intros x Hx. apply H. now right.
Qed.

(** X15. The scenario of the README, on any store with distinct
    identities and for any binding of [pubsub]: after [addUser], then
    [addProduct], then [addOrder] with the identities those two were
    given, reading the new order returns it with its [user] field resolved
    to the user just created and its [products] field resolved to the
    product just created. *)
Theorem created_order_resolves_its_references (pubsub : option PubSub)
  (w : World) (username email : string) (role : RoleEnum) (name : string)
  (price : Z) (category : Optional string) (pstatus : Optional StatusEnum)
  (total : Z) (status : OrderStatusEnum) :
  well_keyed (db w) ->
  let n := next_id (db w) in
  let user := mkUser n (value username) (value email) (value (RoleEnum_name role)) in
  let product :=
    mkProduct (S n) (value name) (value price) category
      (Optional_map StatusEnum_name pstatus) in
  let order :=
    mkOrder (S (S n)) (value [S n]) (value n) (value total)
      (value (OrderStatusEnum_name status)) in
  let w1 := world_after (Mutation.addUser pubsub username email role w) in
  let w2 := world_after (Mutation.addProduct pubsub name price category pstatus w1) in
  let w3 := world_after
              (Mutation.addOrder pubsub [Hex (S n)] (Hex n) total status w2) in
  outcome (Execute.order (Hex (S (S n))) w3) =
    Returned (Some (Execute.mkOrderResult order (Returned [product])
                      (Returned (Some user)))).
Proof.
  intros [[_ HP] [[_ HU] [_ HO]]] n user product order w1 w2 w3.
  simpl in HP, HU, HO.
  assert (E3 : db w3 =
               mkStore (Products (db w) ++ [product]) (Users (db w) ++ [user])
                 (Orders (db w) ++ [order]) (S (S (S n)))).
  { subst w3 w2 w1.
    rewrite (addOrder_db pubsub [S n] n total status), addProduct_db, addUser_db.
    reflexivity. }
  unfold outcome, Execute.order. unfold bind at 1. rewrite order_run, E3.
  cbn [Orders fst snd].
  assert (Hfound : List.find (fun d => Nat.eqb (order_id d) (S (S n)))
                     (Orders (db w) ++ [order]) = Some order).
  { apply (find_appended Models.Order (Orders (db w)) order).
    intros x Hx. specialize (HO x Hx). simpl. subst n. lia. }
  rewrite Hfound. unfold bind at 1. rewrite completeOrder_run. cbn [fst db].
  assert (Hps : List.filter (Mongoose.id_in Models.Product (value [S n]))
                  (Products (db w) ++ [product]) = [product]).
  { rewrite List.filter_app, filter_none.
    - simpl. now rewrite Nat.eqb_refl.
    - intros x Hx. specialize (HP x Hx). simpl.
      assert (F : Nat.eqb (product_id x) (S n) = false).
      { apply Nat.eqb_neq. subst n. lia. }
      now rewrite F. }
  assert (Hu : List.find (Mongoose.id_equals Models.User (value n))
                 (Users (db w) ++ [user]) = Some user).
  { apply (find_appended Models.User (Users (db w)) user).
    intros x Hx. specialize (HU x Hx). simpl. subst n. lia. }
  unfold resolve_per_record.
  cbn [Products Users order_products order_user order].
  now rewrite Hps, Hu.
Qed.

Lemma created_order_resolves_its_references_witness :
  well_keyed (db (world_of shop)) /\
  outcome
    (Execute.order (Hex 26)
       (world_after
          (Mutation.addOrder module_pubsub [Hex 25] (Hex 24) 200%Z COMPLETED
             (world_after
                (Mutation.addProduct module_pubsub "KeyBoard" 99%Z
                   (value "Electronics") (value ACTIVE)
                   (world_after
                      (Mutation.addUser module_pubsub "user_1"
                         "user_1@ymail.com" CUSTOMER (world_of shop))))))))
  = Returned
      (Some (Execute.mkOrderResult
               (mkOrder 26 (value [25]) (value 24) (value 200%Z)
                  (value "COMPLETED"))
               (Returned [mkProduct 25 (value "KeyBoard") (value 99%Z)
                            (value "Electronics") (value "ACTIVE")])
               (Returned (Some (mkUser 24 (value "user_1")
                                  (value "user_1@ymail.com")
                                  (value "CUSTOMER")))))).
Proof.
  split; [exact shop_well_keyed|].
  exact (created_order_resolves_its_references module_pubsub (world_of shop)
           "user_1" "user_1@ymail.com" CUSTOMER "KeyBoard" 99%Z
           (value "Electronics") (value ACTIVE) 200%Z COMPLETED shop_well_keyed).
Defined.
